(** * SocialPredict JavaScript SDK: transport, error taxonomy and resource
      conventions

    A shallow embedding of the SDK sources
    ([src/errors.js], [src/http-client.js], [src/index.js],
    [src/resources/*.js]) together with the properties of its
    specification that concern error classification, token injection,
    local validation and date normalisation.

    JavaScript values are dynamically typed, so every argument of a
    resource method is a [JSValue]; objects used as records are finite maps
    from property names to values. *)

From Stdlib Require Import ZArith String Ascii List.
From stdpp Require Import gmap strings list fin_maps pretty.

Set Warnings "-register-all".

Local Open Scope string_scope.
Local Open Scope Z_scope.

(* ===================================================================== *)
(** * The JavaScript runtime the sources rely on *)
(* ===================================================================== *)

Module JS.

(** Numbers.  The SDK only handles identifiers, amounts, HTTP statuses
    and lengths; they are modelled as integer-valued numbers plus [NaN],
    the result of failed numeric conversions. *)
Inductive JSNumber : Type :=
| NaN
| Num (z : Z).

(** Values: primitives (strings are sequences of code units below 256),
    [Date] objects (their time value in milliseconds since the epoch,
    [None] for an Invalid Date), plain objects (their own data
    properties; they inherit from [Object.prototype]) and the built-in
    functions of the engine, which a property read reaches through the
    prototype chain; a built-in function is named by its path from the
    global object, as in [Object.prototype.toString]. *)
Inductive JSValue : Type :=
| VUndefined
| VNull
| VBool (b : bool)
| VNum (n : JSNumber)
| VStr (s : string)
| VDate (t : option Z)
| VObj (o : gmap string JSValue)
| VNative (path : string).

(** What the engine decides beyond the value model: parsing a string as a
    number ([Number(s)]), the local-time rendering of a date
    ([Date.prototype.toString]), the source text of a built-in function
    ([Function.prototype.toString]) and the own properties a built-in
    function carries ([name], [length], the static members of a
    constructor). *)
Class Engine : Type := {
  StringToNumber : string -> JSNumber;
  DateToString : Z -> string;
  FunctionToString : string -> string;
  FunctionOwnProperty : string -> string -> option JSValue
}.

(** [ToBoolean]: the falsy values are [undefined], [null], [false],
    [0], [NaN] and the empty string. *)
Definition truthy (v : JSValue) : bool :=
  match v with
  | VUndefined | VNull => false
  | VBool b => b
  | VNum NaN => false
  | VNum (Num z) => negb (z =? 0)
  | VStr s => negb (String.eqb s "")
  | VDate _ | VObj _ | VNative _ => true
  end.

(** [v === undefined || v === null]. *)
Definition nullish (v : JSValue) : bool :=
  match v with
  | VUndefined | VNull => true
  | _ => false
  end.

(** [a || b] on values. *)
Definition or_else (a b : JSValue) : JSValue :=
  if truthy a then a else b.

(** [v === s] for a string literal [s]. *)
Definition strict_eq_str (v : JSValue) (s : string) : bool :=
  match v with
  | VStr s' => String.eqb s' s
  | _ => false
  end.

(** [v instanceof Date]. *)
Definition instanceof_Date (v : JSValue) : bool :=
  match v with
  | VDate _ => true
  | _ => false
  end.

(** [typeof v]. *)
Definition typeof (v : JSValue) : string :=
  match v with
  | VUndefined => "undefined"
  | VNull => "object"
  | VBool _ => "boolean"
  | VNum _ => "number"
  | VStr _ => "string"
  | VDate _ | VObj _ => "object"
  | VNative _ => "function"
  end.

Definition NumberToString (n : JSNumber) : string :=
  match n with
  | NaN => "NaN"
  | Num z => pretty z
  end.

Section Conversions.
Context `{Engine}.

(** [ToString], as applied by template literals, [Error] and
    [RegExp.prototype.test]. *)
Definition ToString (v : JSValue) : string :=
  match v with
  | VUndefined => "undefined"
  | VNull => "null"
  | VBool true => "true"
  | VBool false => "false"
  | VNum n => NumberToString n
  | VStr s => s
  | VDate None => "Invalid Date"
  | VDate (Some t) => DateToString t
  | VObj _ => "[object Object]"
  | VNative f => FunctionToString f
  end.

(** [ToNumber], as applied by the relational operators when the other
    operand is a number. *)
Definition ToNumber (v : JSValue) : JSNumber :=
  match v with
  | VUndefined => NaN
  | VNull => Num 0
  | VBool true => Num 1
  | VBool false => Num 0
  | VNum n => n
  | VStr s => StringToNumber s
  | VDate None => NaN
  | VDate (Some t) => Num t
  | VObj _ => StringToNumber "[object Object]"
  | VNative f => StringToNumber (FunctionToString f)
  end.

(** [v <= k], [v < k] and [v > k] for a numeric literal [k]; any
    comparison with [NaN] is false. *)
Definition le_num (v : JSValue) (k : Z) : bool :=
  match ToNumber v with
  | NaN => false
  | Num z => z <=? k
  end.

Definition lt_num (v : JSValue) (k : Z) : bool :=
  match ToNumber v with
  | NaN => false
  | Num z => z <? k
  end.

Definition gt_num (v : JSValue) (k : Z) : bool :=
  match ToNumber v with
  | NaN => false
  | Num z => z >? k
  end.
End Conversions.

(** ** [Date.prototype.toISOString]

    The UTC rendering [YYYY-MM-DDTHH:mm:ss.sssZ] of a time value, with
    the expanded year form ([+YYYYYY] / [-YYYYYY]) outside 0..9999. *)
Definition msPerDay : Z := 86400000.
Definition Day (t : Z) : Z := t / msPerDay.
Definition HourFromTime (t : Z) : Z := (t / 3600000) mod 24.
Definition MinFromTime (t : Z) : Z := (t / 60000) mod 60.
Definition SecFromTime (t : Z) : Z := (t / 1000) mod 60.
Definition msFromTime (t : Z) : Z := t mod 1000.

(** Year, month (1..12) and day of the month (1..31) of a day number
    counted from 1970-01-01, in the proleptic Gregorian calendar. *)
Definition civil_from_days (days : Z) : Z * Z * Z :=
  let z := days + 719468 in
  let era := z / 146097 in
  let doe := z - era * 146097 in
  let yoe := (doe - doe / 1460 + doe / 36524 - doe / 146096) / 365 in
  let doy := doe - (365 * yoe + yoe / 4 - yoe / 100) in
  let mp := (5 * doy + 2) / 153 in
  let d := doy - (153 * mp + 2) / 5 + 1 in
  let m := if mp <? 10 then mp + 3 else mp - 9 in
  let y := yoe + era * 400 + (if m <=? 2 then 1 else 0) in
  (y, m, d).

(** The character of the last decimal digit of a number. *)
Definition digit (z : Z) : ascii := ascii_of_nat (48 + Z.to_nat (z mod 10)).

(** The last [width] decimal digits of a non-negative number, most
    significant first, put in front of [acc]. *)
Fixpoint pad_onto (width : nat) (z : Z) (acc : string) : string :=
  match width with
  | O => acc
  | S w => pad_onto w (z / 10) (String (digit z) acc)
  end.

Definition pad (width : nat) (z : Z) : string := pad_onto width z "".

Definition YearString (y : Z) : string :=
  if (0 <=? y) && (y <=? 9999) then pad 4 y
  else (if y <? 0 then "-" else "+") +:+ pad 6 (Z.abs y).

Definition Date_toISOString (t : Z) : string :=
  let '(y, m, d) := civil_from_days (Day t) in
  YearString y +:+ "-" +:+ pad 2 m +:+ "-" +:+ pad 2 d +:+ "T"
    +:+ pad 2 (HourFromTime t) +:+ ":" +:+ pad 2 (MinFromTime t) +:+ ":"
    +:+ pad 2 (SecFromTime t) +:+ "." +:+ pad 3 (msFromTime t) +:+ "Z".

(** ** Regular expressions

    The fragment used by the sources: character classes, sequencing,
    alternation and repetition, matched against the whole input (a
    pattern written between [^] and [$]). *)
Inductive regex : Type :=
| Never
| Empty
| Class (p : ascii -> bool)
| Seq (r1 r2 : regex)
| Alt (r1 r2 : regex)
| Star (r : regex).

Definition Plus (r : regex) : regex := Seq r (Star r).

Fixpoint nullable (r : regex) : bool :=
  match r with
  | Never => false
  | Empty => true
  | Class _ => false
  | Seq r1 r2 => nullable r1 && nullable r2
  | Alt r1 r2 => nullable r1 || nullable r2
  | Star _ => true
  end.

Fixpoint deriv (c : ascii) (r : regex) : regex :=
  match r with
  | Never | Empty => Never
  | Class p => if p c then Empty else Never
  | Seq r1 r2 =>
      if nullable r1
      then Alt (Seq (deriv c r1) r2) (deriv c r2)
      else Seq (deriv c r1) r2
  | Alt r1 r2 => Alt (deriv c r1) (deriv c r2)
  | Star r1 => Seq (deriv c r1) (Star r1)
  end.

Fixpoint matches (r : regex) (s : string) : bool :=
  match s with
  | EmptyString => nullable r
  | String c s' => matches (deriv c r) s'
  end.

(** The class [\s] on code units below 256: tab, line feed, vertical
    tab, form feed, carriage return, space and no-break space. *)
Definition is_space (c : ascii) : bool :=
  let n := nat_of_ascii c in
  ((9 <=? n) && (n <=? 13) || (n =? 32) || (n =? 160))%nat.

Definition is_char (c0 c : ascii) : bool := Ascii.eqb c c0.

(** [Array.prototype.join] on an array of strings. *)
Definition join (sep : string) (l : list string) : string :=
  String.concat sep l.

End JS.
Export JS.

(* ===================================================================== *)
(** * [src/errors.js] *)
(* ===================================================================== *)

Module Errors.
(** An instance of [class SocialPredictError extends Error].  [message]
    is the string the [Error] base class stores; the other fields are
    stored as passed. *)
Record SocialPredictError : Type := {
  name : string;
  message : string;
  statusCode : Z;
  code : JSValue;
  data : JSValue
}.

Section Constructor.
Context `{Engine}.

(** [super(message)]: [Error] stores [ToString(message)], and the empty
    string of its prototype when the argument is [undefined]. *)
Definition Error_message (message : JSValue) : string :=
  match message with
  | VUndefined => ""
  | _ => ToString message
  end.

(** [constructor (message, statusCode = 0, code = 'UNKNOWN_ERROR',
    data = null)]; an omitted argument is [None]. *)
Definition constructor (message : JSValue) (statusCode : option Z)
    (code data : option JSValue) : SocialPredictError :=
  {| name := "SocialPredictError";
     message := Error_message message;
     statusCode := default 0 statusCode;
     code := default (VStr "UNKNOWN_ERROR") code;
     data := default VNull data |}.
End Constructor.

Definition isNetworkError (this : SocialPredictError) : bool :=
  strict_eq_str (code this) "NETWORK_ERROR".

Definition isAuthError (this : SocialPredictError) : bool :=
  (statusCode this =? 401) || (statusCode this =? 403).

Definition isValidationError (this : SocialPredictError) : bool :=
  statusCode this =? 400.

Definition isNotFoundError (this : SocialPredictError) : bool :=
  statusCode this =? 404.

Definition isServerError (this : SocialPredictError) : bool :=
  statusCode this >=? 500.

Definition toJSON (this : SocialPredictError) : gmap string JSValue :=
  <[ "name" := VStr (name this) ]>
  (<[ "message" := VStr (message this) ]>
  (<[ "statusCode" := VNum (Num (statusCode this)) ]>
  (<[ "code" := code this ]>
  (<[ "data" := data this ]> ∅)))).
End Errors.

(* ===================================================================== *)
(** * Exceptions and results *)
(* ===================================================================== *)

(** What a [throw] carries: a plain [Error] built by the sources with
    [new Error(msg)], an error raised by the engine itself, or a
    [SocialPredictError]. *)
Inductive Thrown : Type :=
| PlainError (msg : string)
| TypeError (msg : string)
| RangeError (msg : string)
| SPError (e : Errors.SocialPredictError).

Inductive Result (A : Type) : Type :=
| Ok (a : A)
| Throw (t : Thrown).
Arguments Ok {A} a.
Arguments Throw {A} t.

(** [t instanceof SocialPredictError]. *)
Definition instanceof_SocialPredictError (t : Thrown) : bool :=
  match t with
  | SPError _ => true
  | _ => false
  end.

(** ** Property reads and the built-in prototypes

    The members of the built-in prototype objects that have a string
    name (ECMAScript 2024 with its Annex B): each is a function, but for
    the [length] and [name] of [Function.prototype]. *)
Definition methods (prototype : string) (names : list string)
    : list (string * JSValue) :=
  map (fun n => (n, VNative (prototype +:+ "." +:+ n))) names.

Definition Object_prototype : list (string * JSValue) :=
  ("constructor", VNative "Object")
  :: methods "Object.prototype"
       ["__defineGetter__"; "__defineSetter__"; "hasOwnProperty";
        "__lookupGetter__"; "__lookupSetter__"; "isPrototypeOf";
        "propertyIsEnumerable"; "toString"; "valueOf"; "toLocaleString"].

Definition Boolean_prototype : list (string * JSValue) :=
  ("constructor", VNative "Boolean")
  :: methods "Boolean.prototype" ["toString"; "valueOf"].

Definition Number_prototype : list (string * JSValue) :=
  ("constructor", VNative "Number")
  :: methods "Number.prototype"
       ["toExponential"; "toFixed"; "toPrecision"; "toString"; "valueOf";
        "toLocaleString"].

Definition String_prototype : list (string * JSValue) :=
  ("constructor", VNative "String")
  :: ("trimLeft", VNative "String.prototype.trimStart")
  :: ("trimRight", VNative "String.prototype.trimEnd")
  :: methods "String.prototype"
       ["anchor"; "at"; "big"; "blink"; "bold"; "charAt"; "charCodeAt";
        "codePointAt"; "concat"; "endsWith"; "fontcolor"; "fontsize";
        "fixed"; "includes"; "indexOf"; "isWellFormed"; "italics";
        "lastIndexOf"; "link"; "localeCompare"; "match"; "matchAll";
        "normalize"; "padEnd"; "padStart"; "repeat"; "replace";
        "replaceAll"; "search"; "slice"; "small"; "split"; "strike";
        "sub"; "substr"; "substring"; "sup"; "startsWith"; "toString";
        "toWellFormed"; "trim"; "trimStart"; "trimEnd";
        "toLocaleLowerCase"; "toLocaleUpperCase"; "toLowerCase";
        "toUpperCase"; "valueOf"].

Definition Date_prototype : list (string * JSValue) :=
  ("constructor", VNative "Date")
  :: ("toGMTString", VNative "Date.prototype.toUTCString")
  :: methods "Date.prototype"
       ["toString"; "toDateString"; "toTimeString"; "toISOString";
        "toUTCString"; "getDate"; "setDate"; "getDay"; "getFullYear";
        "setFullYear"; "getHours"; "setHours"; "getMilliseconds";
        "setMilliseconds"; "getMinutes"; "setMinutes"; "getMonth";
        "setMonth"; "getSeconds"; "setSeconds"; "getTime"; "setTime";
        "getTimezoneOffset"; "getUTCDate"; "setUTCDate"; "getUTCDay";
        "getUTCFullYear"; "setUTCFullYear"; "getUTCHours"; "setUTCHours";
        "getUTCMilliseconds"; "setUTCMilliseconds"; "getUTCMinutes";
        "setUTCMinutes"; "getUTCMonth"; "setUTCMonth"; "getUTCSeconds";
        "setUTCSeconds"; "valueOf"; "getYear"; "setYear"; "toJSON";
        "toLocaleString"; "toLocaleDateString"; "toLocaleTimeString"].

Definition Function_prototype : list (string * JSValue) :=
  ("length", VNum (Num 0))
  :: ("name", VStr "")
  :: ("constructor", VNative "Function")
  :: methods "Function.prototype" ["apply"; "bind"; "call"; "toString"].

(** The first entry of a table under a name. *)
Fixpoint assoc (name : string) (table : list (string * JSValue))
    : option JSValue :=
  match table with
  | [] => None
  | (n, x) :: table' => if String.eqb n name then Some x else assoc name table'
  end.

(** The first member of a name along a chain of tables. *)
Fixpoint lookup_chain (name : string) (chain : list (list (string * JSValue)))
    : option JSValue :=
  match chain with
  | [] => None
  | table :: chain' =>
      match assoc name table with
      | Some x => Some x
      | None => lookup_chain name chain'
      end
  end.

(** The prototype chain of a value, nearest prototype first. *)
Definition prototype_chain (v : JSValue) : list (list (string * JSValue)) :=
  match v with
  | VUndefined | VNull => []
  | VBool _ => [Boolean_prototype; Object_prototype]
  | VNum _ => [Number_prototype; Object_prototype]
  | VStr _ => [String_prototype; Object_prototype]
  | VDate _ => [Date_prototype; Object_prototype]
  | VObj _ => [Object_prototype]
  | VNative _ => [Function_prototype; Object_prototype]
  end.

(** The value of the accessor [__proto__] of [Object.prototype]: the
    nearest prototype, as a plain object holding the members above
    ([Function.prototype] is itself a function). *)
Definition GetPrototypeOf (v : JSValue) : JSValue :=
  match v with
  | VNative _ => VNative "Function.prototype"
  | _ =>
      match prototype_chain v with
      | table :: _ => VObj (list_to_map table)
      | [] => VNull
      end
  end.

(** What a value inherits under a name: the accessor [__proto__], else the
    first member of that name along the prototype chain. *)
Definition inherited (v : JSValue) (name : string) : option JSValue :=
  if String.eqb name "__proto__" then Some (GetPrototypeOf v)
  else lookup_chain name (prototype_chain v).

(** The character of a string under an index written in decimal. *)
Definition string_index (s : string) (name : string) : option JSValue :=
  match find (fun i => String.eqb (pretty (Z.of_nat i)) name)
             (seq 0 (String.length s)) with
  | Some i => option_map (fun c => VStr (String c "")) (String.get i s)
  | None => None
  end.

Section PropertyRead.
Context `{Engine}.

(** The own property of a value under a name: the properties of a plain
    object, the [length] and the indexed characters of a string, what the
    engine gives a built-in function. *)
Definition GetOwnProperty (v : JSValue) (name : string) : option JSValue :=
  match v with
  | VObj o => o !! name
  | VStr s =>
      if String.eqb name "length"
      then Some (VNum (Num (Z.of_nat (String.length s))))
      else string_index s name
  | VNative f => FunctionOwnProperty f name
  | _ => None
  end.

(** The accessors [caller] and [arguments] of [Function.prototype], which
    raise on every built-in function. *)
Definition restricted (v : JSValue) (name : string) : bool :=
  match v with
  | VNative _ => String.eqb name "caller" || String.eqb name "arguments"
  | _ => false
  end.

(** Property read [v[name]] / [v.name]: the own property, else the
    inherited member, else [undefined].  Reading a property of
    [undefined] or [null] raises a [TypeError]. *)
Definition GetProp (v : JSValue) (name : string) : Result JSValue :=
  match v with
  | VUndefined =>
      Throw (TypeError ("Cannot read properties of undefined (reading '"
                          +:+ name +:+ "')"))
  | VNull =>
      Throw (TypeError ("Cannot read properties of null (reading '"
                          +:+ name +:+ "')"))
  | _ =>
      match GetOwnProperty v name with
      | Some x => Ok x
      | None =>
          if restricted v name
          then Throw (TypeError "'caller', 'callee', and 'arguments' properties may not be accessed on strict mode functions or the arguments objects for calls to them")
          else Ok (default VUndefined (inherited v name))
      end
  end.
End PropertyRead.

(** The method [toISOString] of a [Date]; it raises a [RangeError] on an
    Invalid Date. *)
Definition Date_prototype_toISOString (this : JSValue) : Result JSValue :=
  match this with
  | VDate (Some t) => Ok (VStr (Date_toISOString t))
  | VDate None => Throw (RangeError "Invalid time value")
  | _ => Throw (TypeError "this is not a Date object.")
  end.

(** An object spread [{ ...v }]: the own enumerable properties of the
    value, which are the properties of a plain object and the indexed
    characters of a string; other values contribute none. *)
Definition spread (v : JSValue) : gmap string JSValue :=
  match v with
  | VObj o => o
  | VStr s =>
      list_to_map
        (imap (fun i c => (pretty (Z.of_nat i), VStr (String c "")))
              (list_ascii_of_string s))
  | _ => ∅
  end.

(* ===================================================================== *)
(** * [src/http-client.js] *)
(* ===================================================================== *)

Module Axios.
(** The request configuration axios hands to the interceptors and then
    dispatches: verb, path, query parameters, body and headers. *)
Record RequestConfig : Type := {
  method : string;
  url : string;
  params : JSValue;
  body : JSValue;
  headers : gmap string string
}.

Record Response : Type := {
  status : Z;
  data : JSValue
}.

(** A rejection of the dispatch: [error.response] (set when the server
    answered with a status outside 2xx), whether [error.request] is set,
    [error.code] and [error.message]. *)
Record Error : Type := {
  response : option Response;
  request : bool;
  code : JSValue;
  message : JSValue
}.

Inductive Outcome : Type :=
| Fulfilled (r : Response)
| Rejected (e : Error).

(** The instance created by [axios.create]: its defaults. *)
Record Instance : Type := {
  defaults_baseURL : string;
  defaults_timeout : JSValue;
  defaults_headers : gmap string string
}.

(** The network: what the dispatch of a request yields, given the
    requests dispatched before it. *)
Class Network : Type :=
  dispatch : list RequestConfig -> RequestConfig -> Outcome.
End Axios.

Module HttpClient.
Import Axios.

(** The [options] argument of the constructor; an absent property is
    [VUndefined], absent [headers] are the empty map. *)
Record Options : Type := {
  opt_token : JSValue;
  opt_timeout : JSValue;
  opt_headers : gmap string string
}.

(** [options = {}]. *)
Definition no_options : Options :=
  {| opt_token := VUndefined; opt_timeout := VUndefined; opt_headers := ∅ |}.

Record t : Type := {
  baseURL : string;
  token : JSValue;
  client : Axios.Instance
}.

(** The object spread [{ 'Content-Type': 'application/json',
    ...options.headers }]: later properties win. *)
Definition constructor (baseURL : string) (options : Options) : t :=
  {| baseURL := baseURL;
     token := or_else (opt_token options) VNull;
     client :=
       {| defaults_baseURL := baseURL;
          defaults_timeout := or_else (opt_timeout options) (VNum (Num 10000));
          defaults_headers :=
            opt_headers options
              ∪ {[ "Content-Type" := "application/json" ]} |} |}.

Definition setToken (this : t) (token : JSValue) : t :=
  {| baseURL := baseURL this; token := token; client := client this |}.

Definition clearToken (this : t) : t :=
  {| baseURL := baseURL this; token := VNull; client := client this |}.

(** [!config.headers.Authorization]. *)
Definition no_Authorization (h : gmap string string) : bool :=
  negb (truthy (from_option VStr VUndefined (h !! "Authorization"))).

Section Interceptors.
Context `{Engine}.

(** Request interceptor. *)
Definition onRequest (this : t) (config : RequestConfig) : RequestConfig :=
  if truthy (token this) && no_Authorization (headers config)
  then {| method := method config; url := url config;
          params := params config; body := body config;
          headers := <[ "Authorization" := "Bearer " +:+ ToString (token this) ]>
                       (headers config) |}
  else config.

(** Response interceptor, rejection handler: always throws. *)
Definition onResponseError (error : Axios.Error) : Thrown :=
  match response error with
  | Some r =>
      match GetProp (data r) "message" with
      | Throw e => e
      | Ok msg =>
          match GetProp (data r) "error" with
          | Throw e => e
          | Ok err =>
              SPError (Errors.constructor
                (or_else msg
                   (VStr ("HTTP " +:+ NumberToString (Num (status r)) +:+ " Error")))
                (Some (status r))
                (Some (or_else err (VStr "API_ERROR")))
                (Some (data r)))
          end
      end
  | None =>
      if request error
         || strict_eq_str (code error) "ECONNABORTED"
         || strict_eq_str (message error) "Network Error"
      then SPError (Errors.constructor
             (VStr "Network error - unable to reach server")
             (Some 0) (Some (VStr "NETWORK_ERROR")) None)
      else SPError (Errors.constructor
             (or_else (message error) (VStr "Unexpected error"))
             (Some 0) (Some (VStr "UNKNOWN_ERROR")) None)
  end.
End Interceptors.
End HttpClient.

(* ===================================================================== *)
(** * Effects: the shared transport and the requests sent so far *)
(* ===================================================================== *)

(** Every resource of a client holds a reference to the same [HttpClient];
    the world is that object together with the log of the requests handed
    to the network, oldest first. *)
Record World : Type := {
  http : HttpClient.t;
  sent : list Axios.RequestConfig
}.

(** A computation that may throw and may change the world. *)
Definition M (A : Type) : Type := World -> Result A * World.

Definition ret {A} (a : A) : M A := fun w => (Ok a, w).
Definition throw {A} (t : Thrown) : M A := fun w => (Throw t, w).
Definition lift {A} (r : Result A) : M A := fun w => (r, w).
Definition bind {A B} (m : M A) (k : A -> M B) : M B :=
  fun w =>
    match m w with
    | (Ok a, w') => k a w'
    | (Throw t, w') => (Throw t, w')
    end.

Definition bindR {A B} (r : Result A) (k : A -> Result B) : Result B :=
  match r with
  | Ok a => k a
  | Throw t => Throw t
  end.

Declare Scope js_scope.
Delimit Scope js_scope with js.
Notation "'let*' x ':=' m 'in' k" := (bind m (fun x => k))
  (at level 10, x name, m at level 100, k at level 200) : js_scope.
Notation "m ';;' k" := (bind m (fun _ => k))
  (at level 100, k at level 200, right associativity) : js_scope.
Notation "'let?' x ':=' r 'in' k" := (bindR r (fun x => k))
  (at level 10, x name, r at level 100, k at level 200).

(** The verb methods and token accessors of [HttpClient], run against the
    world. *)
Module Transport.
Import Axios.
Section Verbs.
Context `{Engine} `{Network}.

(** A parameter default [x = d]: used when the argument is
    [undefined]. *)
Definition default_arg (v d : JSValue) : JSValue :=
  match v with
  | VUndefined => d
  | _ => v
  end.

(** One call of the axios instance: the defaults give the headers, the
    request interceptor decorates the configuration, the network
    answers, and the response interceptor classifies a rejection. *)
Definition call (method url : string) (params body : JSValue) : M Response :=
  fun w =>
    let config :=
      HttpClient.onRequest (http w)
        {| method := method; url := url; params := params; body := body;
           headers := defaults_headers (HttpClient.client (http w)) |} in
    let w' := {| http := http w; sent := sent w ++ [config] |} in
    match dispatch (sent w) config with
    | Fulfilled r => (Ok r, w')
    | Rejected e => (Throw (HttpClient.onResponseError e), w')
    end.

Definition get (path : string) (params : JSValue) : M JSValue :=
  (let* response := call "get" path (default_arg params (VObj ∅)) VUndefined in
   ret (data response))%js.

Definition post (path : string) (data : JSValue) : M JSValue :=
  (let* response := call "post" path VUndefined (default_arg data (VObj ∅)) in
   ret (Axios.data response))%js.

Definition put (path : string) (data : JSValue) : M JSValue :=
  (let* response := call "put" path VUndefined (default_arg data (VObj ∅)) in
   ret (Axios.data response))%js.

Definition patch (path : string) (data : JSValue) : M JSValue :=
  (let* response := call "patch" path VUndefined (default_arg data (VObj ∅)) in
   ret (Axios.data response))%js.

Definition delete (path : string) : M JSValue :=
  (let* response := call "delete" path VUndefined VUndefined in
   ret (data response))%js.
End Verbs.

(** [this.client.setToken(token)] and [this.client.clearToken()] on the
    shared transport. *)
Definition setToken (token : JSValue) : M unit :=
  fun w => (Ok tt, {| http := HttpClient.setToken (http w) token; sent := sent w |}).

Definition clearToken : M unit :=
  fun w => (Ok tt, {| http := HttpClient.clearToken (http w); sent := sent w |}).

(** [this.client.token]. *)
Definition token : M JSValue :=
  fun w => (Ok (HttpClient.token (http w)), w).
End Transport.

(* ===================================================================== *)
(** * [src/resources/base.js] *)
(* ===================================================================== *)

Module BaseResource.
Section Validation.
Context `{Engine}.

(** [Array.prototype.filter] with a callback that may throw. *)
Fixpoint Array_filter (f : string -> Result bool) (l : list string)
    : Result (list string) :=
  match l with
  | [] => Ok []
  | x :: l' =>
      let? keep := f x in
      let? rest := Array_filter f l' in
      Ok (if keep then x :: rest else rest)
  end.

(** The callback [param => params[param] === undefined ||
    params[param] === null]. *)
Definition is_missing (params : JSValue) (param : string) : Result bool :=
  let? v := GetProp params param in
  Ok (nullish v).

Definition validateRequired (params : JSValue) (required : list string)
    : Result unit :=
  let? missing := Array_filter (is_missing params) required in
  if (0 <? length missing)%nat
  then Throw (PlainError ("Missing required parameters: " +:+ join ", " missing))
  else Ok tt.
End Validation.

Definition formatDate (date : JSValue) : Result JSValue :=
  if instanceof_Date date
  then Date_prototype_toISOString date
  else Ok date.

End BaseResource.

(* ===================================================================== *)
(** * [src/resources/*.js] *)
(* ===================================================================== *)

Module BettingResource.
Import BaseResource.
Section Methods.
Context `{Engine} `{Axios.Network}.

Definition placeBet (betData : JSValue) : M JSValue :=
  (lift (validateRequired betData ["marketId"; "amount"; "outcome"]) ;;
   let* amount := lift (GetProp betData "amount") in
   if le_num amount 0
   then throw (PlainError "Bet amount must be greater than 0")
   else Transport.post "/v0/bet" betData)%js.

Definition getUserPosition (marketId : JSValue) : M JSValue :=
  if negb (truthy marketId)
  then throw (PlainError "Market ID is required")
  else Transport.get ("/v0/userposition/" +:+ ToString marketId) VUndefined.

Definition sellPosition (sellData : JSValue) : M JSValue :=
  (lift (validateRequired sellData ["marketId"; "amount"; "outcome"]) ;;
   let* amount := lift (GetProp sellData "amount") in
   if le_num amount 0
   then throw (PlainError "Sell amount must be greater than 0")
   else Transport.post "/v0/sell" sellData)%js.
End Methods.
End BettingResource.

Module MarketsResource.
Import BaseResource.
Section Methods.
Context `{Engine} `{Axios.Network}.

Definition list : M JSValue := Transport.get "/v0/markets" VUndefined.

Definition search (query : JSValue) : M JSValue :=
  if negb (truthy query)
  then throw (PlainError "Search query is required")
  else Transport.get "/v0/markets/search" (VObj {[ "q" := query ]}).

Definition listActive : M JSValue :=
  Transport.get "/v0/markets/active" VUndefined.

Definition listClosed : M JSValue :=
  Transport.get "/v0/markets/closed" VUndefined.

Definition listResolved : M JSValue :=
  Transport.get "/v0/markets/resolved" VUndefined.

Definition get (marketId : JSValue) : M JSValue :=
  if negb (truthy marketId)
  then throw (PlainError "Market ID is required")
  else Transport.get ("/v0/markets/" +:+ ToString marketId) VUndefined.

(** The parameter is destructured: [{ marketId, amount, outcome }]. *)
Definition projectProbability (arg : JSValue) : M JSValue :=
  (let* marketId := lift (GetProp arg "marketId") in
   let* amount := lift (GetProp arg "amount") in
   let* outcome := lift (GetProp arg "outcome") in
   lift (validateRequired
           (VObj (<[ "marketId" := marketId ]>
                 (<[ "amount" := amount ]>
                 (<[ "outcome" := outcome ]> ∅))))
           ["marketId"; "amount"; "outcome"]) ;;
   Transport.get
     ("/v0/marketprojection/" +:+ ToString marketId +:+ "/"
        +:+ ToString amount +:+ "/" +:+ ToString outcome +:+ "/")
     VUndefined)%js.

Definition getBets (marketId : JSValue) : M JSValue :=
  if negb (truthy marketId)
  then throw (PlainError "Market ID is required")
  else Transport.get ("/v0/markets/bets/" +:+ ToString marketId) VUndefined.

Definition getPositions (marketId : JSValue) : M JSValue :=
  if negb (truthy marketId)
  then throw (PlainError "Market ID is required")
  else Transport.get ("/v0/markets/positions/" +:+ ToString marketId) VUndefined.

Definition getUserPositions (marketId username : JSValue) : M JSValue :=
  (lift (validateRequired
           (VObj (<[ "marketId" := marketId ]>
                 (<[ "username" := username ]> ∅)))
           ["marketId"; "username"]) ;;
   Transport.get
     ("/v0/markets/positions/" +:+ ToString marketId +:+ "/"
        +:+ ToString username)
     VUndefined)%js.

Definition getLeaderboard (marketId : JSValue) : M JSValue :=
  if negb (truthy marketId)
  then throw (PlainError "Market ID is required")
  else Transport.get ("/v0/markets/leaderboard/" +:+ ToString marketId) VUndefined.

Definition create (marketData : JSValue) : M JSValue :=
  (lift (validateRequired marketData
           ["questionTitle"; "description"; "outcomeType";
            "resolutionDateTime"]) ;;
   let* resolutionDateTime := lift (GetProp marketData "resolutionDateTime") in
   let* formatted := lift (formatDate resolutionDateTime) in
   let data := VObj (<[ "resolutionDateTime" := formatted ]> (spread marketData)) in
   Transport.post "/v0/create" data)%js.

Definition resolve (marketId resolutionResult : JSValue) : M JSValue :=
  (lift (validateRequired
           (VObj (<[ "marketId" := marketId ]>
                 (<[ "resolutionResult" := resolutionResult ]> ∅)))
           ["marketId"; "resolutionResult"]) ;;
   Transport.post ("/v0/resolve/" +:+ ToString marketId)
     (VObj {[ "resolutionResult" := resolutionResult ]}))%js.
End Methods.
End MarketsResource.

Module UsersResource.
Import BaseResource.
Section Methods.
Context `{Engine} `{Axios.Network}.

Definition getPublicInfo (username : JSValue) : M JSValue :=
  if negb (truthy username)
  then throw (PlainError "Username is required")
  else Transport.get ("/v0/userinfo/" +:+ ToString username) VUndefined.

Definition getCredit (username : JSValue) : M JSValue :=
  if negb (truthy username)
  then throw (PlainError "Username is required")
  else Transport.get ("/v0/usercredit/" +:+ ToString username) VUndefined.

Definition getPortfolio (username : JSValue) : M JSValue :=
  if negb (truthy username)
  then throw (PlainError "Username is required")
  else Transport.get ("/v0/portfolio/" +:+ ToString username) VUndefined.

Definition getFinancial (username : JSValue) : M JSValue :=
  if negb (truthy username)
  then throw (PlainError "Username is required")
  else Transport.get ("/v0/users/" +:+ ToString username +:+ "/financial")
         VUndefined.

Definition getPrivateProfile : M JSValue :=
  Transport.get "/v0/privateprofile" VUndefined.

Definition changePassword (passwordData : JSValue) : M JSValue :=
  (lift (validateRequired passwordData ["newPassword"]) ;;
   Transport.post "/v0/changepassword" passwordData)%js.

Definition changeDisplayName (displayName : JSValue) : M JSValue :=
  if negb (truthy displayName)
  then throw (PlainError "Display name is required")
  else Transport.post "/v0/profilechange/displayname"
         (VObj {[ "displayName" := displayName ]}).

Definition changeEmoji (emoji : JSValue) : M JSValue :=
  if negb (truthy emoji)
  then throw (PlainError "Emoji is required")
  else Transport.post "/v0/profilechange/emoji" (VObj {[ "emoji" := emoji ]}).

Definition changeDescription (description : JSValue) : M JSValue :=
  if negb (truthy description)
  then throw (PlainError "Description is required")
  else Transport.post "/v0/profilechange/description"
         (VObj {[ "description" := description ]}).

Definition changePersonalLinks (links : JSValue) : M JSValue :=
  if negb (truthy links) || negb (String.eqb (typeof links) "object")
  then throw (PlainError "Links object is required")
  else Transport.post "/v0/profilechange/links" links.
End Methods.
End UsersResource.

Module ConfigResource.
Section Methods.
Context `{Engine} `{Axios.Network}.

Definition getHome : M JSValue := Transport.get "/v0/home" VUndefined.
Definition getSetup : M JSValue := Transport.get "/v0/setup" VUndefined.
Definition getStats : M JSValue := Transport.get "/v0/stats" VUndefined.
Definition getSystemMetrics : M JSValue :=
  Transport.get "/v0/system/metrics" VUndefined.
Definition getGlobalLeaderboard : M JSValue :=
  Transport.get "/v0/global/leaderboard" VUndefined.
End Methods.
End ConfigResource.

Module AdminResource.
Import BaseResource.

(** [[^\s@]]. *)
Definition not_space_or_at (c : ascii) : bool :=
  negb (is_space c || is_char "@" c).

(** [/^[^\s@]+@[^\s@]+\.[^\s@]+$/]. *)
Definition emailRegex : regex :=
  Seq (Plus (Class not_space_or_at))
    (Seq (Class (is_char "@"))
       (Seq (Plus (Class not_space_or_at))
          (Seq (Class (is_char "."))
             (Plus (Class not_space_or_at))))).

Section Methods.
Context `{Engine} `{Axios.Network}.

Definition createUser (userData : JSValue) : M JSValue :=
  (lift (validateRequired userData
           ["username"; "displayName"; "email"; "password"; "userType"]) ;;
   let* email := lift (GetProp userData "email") in
   if negb (matches emailRegex (ToString email))
   then throw (PlainError "Invalid email format")
   else Transport.post "/v0/admin/createuser" userData)%js.
End Methods.
End AdminResource.

Module AuthResource.
Import BaseResource.
Section Methods.
Context `{Engine} `{Axios.Network}.

Definition login (credentials : JSValue) : M JSValue :=
  (lift (validateRequired credentials ["username"; "password"]) ;;
   let* username := lift (GetProp credentials "username") in
   let* ulen := lift (GetProp username "length") in
   if lt_num ulen 3 || gt_num ulen 30
   then throw (PlainError "Username must be between 3 and 30 characters")
   else
     let* password := lift (GetProp credentials "password") in
     let* plen := lift (GetProp password "length") in
     if lt_num plen 1
     then throw (PlainError "Password must be at least 1 character")
     else
       let* response := Transport.post "/v0/login" credentials in
       let* token := lift (GetProp response "token") in
       (if truthy token then Transport.setToken token else ret tt) ;;
       ret response)%js.
End Methods.

Definition logout : M unit := Transport.clearToken.

Definition isAuthenticated : M bool :=
  (let* token := Transport.token in ret (truthy token))%js.

Definition getToken : M JSValue := Transport.token.

Definition setToken (token : JSValue) : M unit := Transport.setToken token.
End AuthResource.

(* ===================================================================== *)
(** * [src/index.js] *)
(* ===================================================================== *)

Module SocialPredictClient.
(** [constructor (baseURL = 'http://localhost:8080', options = {})]: the
    transport is created and no request has been sent. *)
Definition constructor (baseURL : option string)
    (options : option HttpClient.Options) : World :=
  {| http := HttpClient.constructor
               (default "http://localhost:8080" baseURL)
               (default HttpClient.no_options options);
     sent := [] |}.

Definition setToken (token : JSValue) : M unit := Transport.setToken token.

Definition clearToken : M unit := Transport.clearToken.

Definition getToken : M JSValue := Transport.token.

(** [!!this.httpClient.token]. *)
Definition isAuthenticated : M bool :=
  (let* token := Transport.token in ret (truthy token))%js.
End SocialPredictClient.

(* ===================================================================== *)
(** * The catalogue of resource methods *)
(* ===================================================================== *)

(** One constructor per asynchronous method of the six resource groups,
    carrying its arguments. *)
Inductive ResourceCall : Type :=
| Auth_login (credentials : JSValue)
| Markets_list
| Markets_search (query : JSValue)
| Markets_listActive
| Markets_listClosed
| Markets_listResolved
| Markets_get (marketId : JSValue)
| Markets_projectProbability (arg : JSValue)
| Markets_getBets (marketId : JSValue)
| Markets_getPositions (marketId : JSValue)
| Markets_getUserPositions (marketId username : JSValue)
| Markets_getLeaderboard (marketId : JSValue)
| Markets_create (marketData : JSValue)
| Markets_resolve (marketId resolutionResult : JSValue)
| Users_getPublicInfo (username : JSValue)
| Users_getCredit (username : JSValue)
| Users_getPortfolio (username : JSValue)
| Users_getFinancial (username : JSValue)
| Users_getPrivateProfile
| Users_changePassword (passwordData : JSValue)
| Users_changeDisplayName (displayName : JSValue)
| Users_changeEmoji (emoji : JSValue)
| Users_changeDescription (description : JSValue)
| Users_changePersonalLinks (links : JSValue)
| Betting_placeBet (betData : JSValue)
| Betting_getUserPosition (marketId : JSValue)
| Betting_sellPosition (sellData : JSValue)
| Config_getHome
| Config_getSetup
| Config_getStats
| Config_getSystemMetrics
| Config_getGlobalLeaderboard
| Admin_createUser (userData : JSValue).

Section Run.
Context `{Engine} `{Axios.Network}.

Definition run (c : ResourceCall) : M JSValue :=
  match c with
  | Auth_login credentials => AuthResource.login credentials
  | Markets_list => MarketsResource.list
  | Markets_search query => MarketsResource.search query
  | Markets_listActive => MarketsResource.listActive
  | Markets_listClosed => MarketsResource.listClosed
  | Markets_listResolved => MarketsResource.listResolved
  | Markets_get marketId => MarketsResource.get marketId
  | Markets_projectProbability arg => MarketsResource.projectProbability arg
  | Markets_getBets marketId => MarketsResource.getBets marketId
  | Markets_getPositions marketId => MarketsResource.getPositions marketId
  | Markets_getUserPositions marketId username =>
      MarketsResource.getUserPositions marketId username
  | Markets_getLeaderboard marketId => MarketsResource.getLeaderboard marketId
  | Markets_create marketData => MarketsResource.create marketData
  | Markets_resolve marketId resolutionResult =>
      MarketsResource.resolve marketId resolutionResult
  | Users_getPublicInfo username => UsersResource.getPublicInfo username
  | Users_getCredit username => UsersResource.getCredit username
  | Users_getPortfolio username => UsersResource.getPortfolio username
  | Users_getFinancial username => UsersResource.getFinancial username
  | Users_getPrivateProfile => UsersResource.getPrivateProfile
  | Users_changePassword passwordData => UsersResource.changePassword passwordData
  | Users_changeDisplayName displayName =>
      UsersResource.changeDisplayName displayName
  | Users_changeEmoji emoji => UsersResource.changeEmoji emoji
  | Users_changeDescription description =>
      UsersResource.changeDescription description
  | Users_changePersonalLinks links => UsersResource.changePersonalLinks links
  | Betting_placeBet betData => BettingResource.placeBet betData
  | Betting_getUserPosition marketId => BettingResource.getUserPosition marketId
  | Betting_sellPosition sellData => BettingResource.sellPosition sellData
  | Config_getHome => ConfigResource.getHome
  | Config_getSetup => ConfigResource.getSetup
  | Config_getStats => ConfigResource.getStats
  | Config_getSystemMetrics => ConfigResource.getSystemMetrics
  | Config_getGlobalLeaderboard => ConfigResource.getGlobalLeaderboard
  | Admin_createUser userData => AdminResource.createUser userData
  end.
End Run.

(** ** Concrete surroundings used to run the code on examples *)

(** Value of a string of decimal digits. *)
Fixpoint decimal_value (acc : Z) (s : string) : option Z :=
  match s with
  | EmptyString => Some acc
  | String c s' =>
      let n := Z.of_nat (nat_of_ascii c) in
      if (48 <=? n) && (n <=? 57)
      then decimal_value (10 * acc + (n - 48)) s'
      else None
  end.

(** The last segment of a dotted path. *)
Fixpoint last_segment (acc path : string) : string :=
  match path with
  | EmptyString => acc
  | String c path' =>
      if Ascii.eqb c "."
      then last_segment "" path'
      else last_segment (acc +:+ String c "") path'
  end.

(** An engine whose [Number(s)] reads unsigned decimal integers (the empty
    string is [0], anything else is [NaN]), whose dates print in UTC and
    whose built-in functions print as [function f() { [native code] }]
    and carry their [name]. *)
Definition sampleEngine : Engine :=
  {| StringToNumber := fun s => from_option Num NaN (decimal_value 0 s);
     DateToString := Date_toISOString;
     FunctionToString := fun f =>
       "function " +:+ last_segment "" f +:+ "() { [native code] }";
     FunctionOwnProperty := fun f n =>
       if String.eqb n "name" then Some (VStr (last_segment "" f)) else None |}.

(** A network on which every connection is refused. *)
Definition offline : Axios.Network :=
  fun _ _ =>
    Axios.Rejected
      {| Axios.response := None; Axios.request := true;
         Axios.code := VStr "ECONNREFUSED";
         Axios.message := VStr "connect ECONNREFUSED 127.0.0.1:8080" |}.

(** A server that answers every request with the given status and body;
    a status outside 200..299 rejects the dispatch with that response. *)
Definition answering (status : Z) (body : JSValue) : Axios.Network :=
  fun _ _ =>
    let r := {| Axios.status := status; Axios.data := body |} in
    if (200 <=? status) && (status <? 300)
    then Axios.Fulfilled r
    else Axios.Rejected
           {| Axios.response := Some r; Axios.request := true;
              Axios.code := VStr "ERR_BAD_REQUEST";
              Axios.message :=
                VStr ("Request failed with status code " +:+ pretty status) |}.

(** [new SocialPredictClient()]. *)
Definition fresh : World := SocialPredictClient.constructor None None.

(* ===================================================================== *)
(** * Specification-level notions *)
(* ===================================================================== *)

(** A required name is absent from a parameter object when the object has
    no such property or holds [undefined] or [null] under it. *)
Definition absent (o : gmap string JSValue) (n : string) : Prop :=
  o !! n = None \/ o !! n = Some VUndefined \/ o !! n = Some VNull.

Definition present (o : gmap string JSValue) (n : string) : Prop :=
  exists v, o !! n = Some v /\ v <> VUndefined /\ v <> VNull.

#[global] Instance absent_dec o n : Decision (absent o n).
Proof.
  unfold absent.
  destruct (o !! n) as [[]|];
    try (left; auto; fail);
    right; intros [?|[?|?]]; congruence.
Defined.

(** The required names that are absent, in the order of the required
    list. *)
Definition missing_names (o : gmap string JSValue) (required : list string)
    : list string :=
  filter (absent o) required.

(** The names a plain object answers without holding them: the members
    it inherits from [Object.prototype]. *)
Definition Object_prototype_names : list string :=
  "__proto__" :: map fst Object_prototype.

(** A name is unset in a parameter object when reading it gives
    [undefined] or [null]: the object holds one of the two under the
    name, or it has no such property and inherits none. *)
Definition unset (o : gmap string JSValue) (n : string) : Prop :=
  o !! n = Some VUndefined \/ o !! n = Some VNull
  \/ (o !! n = None /\ n ∉ Object_prototype_names).

#[global] Instance unset_dec o n : Decision (unset o n).
Proof.
  unfold unset.
  destruct (o !! n) as [[]|];
    try (left; auto; fail);
    try (right; intros [?|[?|[? _]]]; congruence).
  destruct (decide (n ∈ Object_prototype_names)) as [Hin|Hout].
  - right. intros [?|[?|[_ ?]]]; [congruence..|contradiction].
  - left. auto.
Defined.

(** No name of the list is a member of [Object.prototype]. *)
Definition plain_names (names : list string) : bool :=
  forallb (fun n => negb (bool_decide (n ∈ Object_prototype_names))) names.

(** Names written one after the other, separated by a comma and a
    space. *)
Definition comma_separated (names : list string) : string :=
  match names with
  | [] => ""
  | n :: rest => fold_left (fun text m => text +:+ ", " +:+ m) rest n
  end.

(** The names after the first, each with its separator in front. *)
Fixpoint separated_tail (names : list string) : string :=
  match names with
  | [] => ""
  | m :: rest => ", " +:+ m +:+ separated_tail rest
  end.

(** The falsy values of the language. *)
Inductive Falsy : JSValue -> Prop :=
| Falsy_undefined : Falsy VUndefined
| Falsy_null : Falsy VNull
| Falsy_false : Falsy (VBool false)
| Falsy_zero : Falsy (VNum (Num 0))
| Falsy_NaN : Falsy (VNum NaN)
| Falsy_empty : Falsy (VStr "").

(** The five verb methods of the transport with their arguments. *)
Inductive VerbCall : Type :=
| GET (path : string) (params : JSValue)
| POST (path : string) (data : JSValue)
| PUT (path : string) (data : JSValue)
| PATCH (path : string) (data : JSValue)
| DELETE (path : string).

Section Perform.
Context `{Engine} `{Axios.Network}.

Definition perform (v : VerbCall) : M JSValue :=
  match v with
  | GET path params => Transport.get path params
  | POST path data => Transport.post path data
  | PUT path data => Transport.put path data
  | PATCH path data => Transport.patch path data
  | DELETE path => Transport.delete path
  end.

(** The configuration a verb call hands to axios, before the request
    interceptor runs. *)
Definition config_of (this : HttpClient.t) (v : VerbCall) : Axios.RequestConfig :=
  let h := Axios.defaults_headers (HttpClient.client this) in
  match v with
  | GET path params =>
      {| Axios.method := "get"; Axios.url := path;
         Axios.params := Transport.default_arg params (VObj ∅);
         Axios.body := VUndefined; Axios.headers := h |}
  | POST path data =>
      {| Axios.method := "post"; Axios.url := path; Axios.params := VUndefined;
         Axios.body := Transport.default_arg data (VObj ∅); Axios.headers := h |}
  | PUT path data =>
      {| Axios.method := "put"; Axios.url := path; Axios.params := VUndefined;
         Axios.body := Transport.default_arg data (VObj ∅); Axios.headers := h |}
  | PATCH path data =>
      {| Axios.method := "patch"; Axios.url := path; Axios.params := VUndefined;
         Axios.body := Transport.default_arg data (VObj ∅); Axios.headers := h |}
  | DELETE path =>
      {| Axios.method := "delete"; Axios.url := path; Axios.params := VUndefined;
         Axios.body := VUndefined; Axios.headers := h |}
  end.
End Perform.

(** ** Reading an ISO-8601 timestamp *)

(** Time values of dates: at most 8.64e15 milliseconds from the epoch. *)
Definition ValidTime (t : Z) : Prop :=
  -8640000000000000 <= t <= 8640000000000000.

(** Day number, counted from 1970-01-01, of a date of the proleptic
    Gregorian calendar. *)
Definition days_from_civil (y m d : Z) : Z :=
  let y' := if m <=? 2 then y - 1 else y in
  let era := y' / 400 in
  let yoe := y' - era * 400 in
  let mp := if m <=? 2 then m + 9 else m - 3 in
  let doy := (153 * mp + 2) / 5 + d - 1 in
  let doe := yoe * 365 + yoe / 4 - yoe / 100 + doy in
  era * 146097 + doe - 719468.

Definition digit_value (c : ascii) : option Z :=
  let n := Z.of_nat (nat_of_ascii c) in
  if (48 <=? n) && (n <=? 57) then Some (n - 48) else None.

(** Reads [n] decimal digits, returning their value and the rest. *)
Fixpoint read_digits (n : nat) (acc : Z) (s : string) : option (Z * string) :=
  match n, s with
  | O, _ => Some (acc, s)
  | S n', String c s' =>
      match digit_value c with
      | Some d => read_digits n' (10 * acc + d) s'
      | None => None
      end
  | S _, EmptyString => None
  end.

Definition expect (c : ascii) (s : string) : option string :=
  match s with
  | String c' s' => if Ascii.eqb c' c then Some s' else None
  | EmptyString => None
  end.

(** A year: four digits, or a sign and six digits. *)
Definition read_year (s : string) : option (Z * string) :=
  match s with
  | String c s' =>
      if Ascii.eqb c "+" then read_digits 6 0 s'
      else if Ascii.eqb c "-"
           then match read_digits 6 0 s' with
                | Some (y, r) => Some (- y, r)
                | None => None
                end
           else read_digits 4 0 s
  | EmptyString => None
  end.

(** The instant, in milliseconds since the epoch, denoted by a timestamp
    [YYYY-MM-DDTHH:mm:ss.sssZ] (or with an expanded year) in UTC. *)
Definition read_iso (s : string) : option Z :=
  '(y, s) ← read_year s;
  s ← expect "-" s;
  '(m, s) ← read_digits 2 0 s;
  s ← expect "-" s;
  '(d, s) ← read_digits 2 0 s;
  s ← expect "T" s;
  '(hh, s) ← read_digits 2 0 s;
  s ← expect ":" s;
  '(mm, s) ← read_digits 2 0 s;
  s ← expect ":" s;
  '(ss, s) ← read_digits 2 0 s;
  s ← expect "." s;
  '(ms, s) ← read_digits 3 0 s;
  s ← expect "Z" s;
  if String.eqb s ""
  then Some (days_from_civil y m d * msPerDay
             + hh * 3600000 + mm * 60000 + ss * 1000 + ms)
  else None.

(** ** The language of a regular expression *)

Inductive lang : regex -> string -> Prop :=
| lang_Empty : lang Empty ""
| lang_Class p c : p c = true -> lang (Class p) (String c "")
| lang_Seq r1 r2 s1 s2 :
    lang r1 s1 -> lang r2 s2 -> lang (Seq r1 r2) (s1 +:+ s2)
| lang_Alt_l r1 r2 s : lang r1 s -> lang (Alt r1 r2) s
| lang_Alt_r r1 r2 s : lang r2 s -> lang (Alt r1 r2) s
| lang_Star_nil r : lang (Star r) ""
| lang_Star_cons r s1 s2 :
    lang r s1 -> lang (Star r) s2 -> lang (Star r) (s1 +:+ s2).

Fixpoint all_chars (p : ascii -> bool) (s : string) : bool :=
  match s with
  | EmptyString => true
  | String c s' => p c && all_chars p s'
  end.

(** A non-empty run of characters other than white space and [@]. *)
Definition email_part (s : string) : Prop :=
  s <> "" /\ all_chars AdminResource.not_space_or_at s = true.

(** An address of the form [local@domain.tld]. *)
Definition WellFormedEmail (s : string) : Prop :=
  exists a b c,
    s = a +:+ "@" +:+ b +:+ "." +:+ c
    /\ email_part a /\ email_part b /\ email_part c.

(** ** Local validation rules *)

(** The object a method passes to [validateRequired] and the names it
    requires there. *)
Definition required_of (c : ResourceCall) : option (JSValue * list string) :=
  match c with
  | Auth_login credentials => Some (credentials, ["username"; "password"])
  | Markets_projectProbability (VObj o) =>
      Some (VObj (<[ "marketId" := default VUndefined (o !! "marketId") ]>
                 (<[ "amount" := default VUndefined (o !! "amount") ]>
                 (<[ "outcome" := default VUndefined (o !! "outcome") ]> ∅))),
            ["marketId"; "amount"; "outcome"])
  | Markets_getUserPositions marketId username =>
      Some (VObj (<[ "marketId" := marketId ]> (<[ "username" := username ]> ∅)),
            ["marketId"; "username"])
  | Markets_create marketData =>
      Some (marketData,
            ["questionTitle"; "description"; "outcomeType"; "resolutionDateTime"])
  | Markets_resolve marketId resolutionResult =>
      Some (VObj (<[ "marketId" := marketId ]>
                 (<[ "resolutionResult" := resolutionResult ]> ∅)),
            ["marketId"; "resolutionResult"])
  | Users_changePassword passwordData => Some (passwordData, ["newPassword"])
  | Betting_placeBet betData => Some (betData, ["marketId"; "amount"; "outcome"])
  | Betting_sellPosition sellData =>
      Some (sellData, ["marketId"; "amount"; "outcome"])
  | Admin_createUser userData =>
      Some (userData, ["username"; "displayName"; "email"; "password"; "userType"])
  | _ => None
  end.

(** The single argument a method requires to be truthy, with the message
    of the failure. *)
Definition guarded_of (c : ResourceCall) : option (JSValue * string) :=
  match c with
  | Markets_search query => Some (query, "Search query is required")
  | Markets_get marketId
  | Markets_getBets marketId
  | Markets_getPositions marketId
  | Markets_getLeaderboard marketId
  | Betting_getUserPosition marketId => Some (marketId, "Market ID is required")
  | Users_getPublicInfo username
  | Users_getCredit username
  | Users_getPortfolio username
  | Users_getFinancial username => Some (username, "Username is required")
  | Users_changeDisplayName displayName =>
      Some (displayName, "Display name is required")
  | Users_changeEmoji emoji => Some (emoji, "Emoji is required")
  | Users_changeDescription description =>
      Some (description, "Description is required")
  | Users_changePersonalLinks links => Some (links, "Links object is required")
  | _ => None
  end.

(** [LocalValidationFailure c msg]: the call [c] breaks a local validation
    rule, whose message is [msg]. *)
Inductive LocalValidationFailure : ResourceCall -> string -> Prop :=
| LVF_missing_required c o required :
    required_of c = Some (VObj o, required) ->
    (exists n, n ∈ required /\ absent o n) ->
    LocalValidationFailure c
      ("Missing required parameters: " +:+ join ", " (missing_names o required))
| LVF_missing_argument c v msg :
    guarded_of c = Some (v, msg) ->
    Falsy v ->
    LocalValidationFailure c msg
| LVF_bet_amount o z :
    Forall (present o) ["marketId"; "amount"; "outcome"] ->
    o !! "amount" = Some (VNum (Num z)) ->
    z <= 0 ->
    LocalValidationFailure (Betting_placeBet (VObj o))
      "Bet amount must be greater than 0"
| LVF_sell_amount o z :
    Forall (present o) ["marketId"; "amount"; "outcome"] ->
    o !! "amount" = Some (VNum (Num z)) ->
    z <= 0 ->
    LocalValidationFailure (Betting_sellPosition (VObj o))
      "Sell amount must be greater than 0"
| LVF_username_length o u :
    o !! "username" = Some (VStr u) ->
    present o "password" ->
    (String.length u < 3 \/ 30 < String.length u)%nat ->
    LocalValidationFailure (Auth_login (VObj o))
      "Username must be between 3 and 30 characters"
| LVF_email_format o s :
    Forall (present o)
      ["username"; "displayName"; "email"; "password"; "userType"] ->
    o !! "email" = Some (VStr s) ->
    ~ WellFormedEmail s ->
    LocalValidationFailure (Admin_createUser (VObj o)) "Invalid email format".

(** A computation that either stops on a local exception, the world
    untouched, or sends exactly one request. *)
Definition local_or_sends {A} (m : M A) : Prop :=
  forall w,
    (exists t, m w = (Throw t, w) /\ instanceof_SocialPredictError t = false)
    \/ length (sent (snd (m w))) = S (length (sent w)).

(** Unfolds the resource methods and the operations of [M]. *)
Ltac run_method :=
  unfold AuthResource.login, MarketsResource.search, MarketsResource.get,
    MarketsResource.projectProbability, MarketsResource.getBets,
    MarketsResource.getPositions, MarketsResource.getUserPositions,
    MarketsResource.getLeaderboard, MarketsResource.create,
    MarketsResource.resolve, UsersResource.getPublicInfo,
    UsersResource.getCredit, UsersResource.getPortfolio,
    UsersResource.getFinancial, UsersResource.changePassword,
    UsersResource.changeDisplayName, UsersResource.changeEmoji,
    UsersResource.changeDescription, UsersResource.changePersonalLinks,
    BettingResource.placeBet, BettingResource.getUserPosition,
    BettingResource.sellPosition, AdminResource.createUser,
    bind, lift, throw.

(* ===================================================================== *)
(** * [buildQuery] and the query strings of [URLSearchParams] *)
(* ===================================================================== *)

Module URLSearchParams.

(** Bytes the [application/x-www-form-urlencoded] serializer leaves as
    they are: [*], [-], [.], [_], digits and letters. *)
Definition unreserved (b : nat) : bool :=
  ((b =? 42) || (b =? 45) || (b =? 46) || (b =? 95)
   || (48 <=? b) && (b <=? 57)
   || (65 <=? b) && (b <=? 90)
   || (97 <=? b) && (b <=? 122))%nat.

Definition hex_digit (n : nat) : ascii :=
  if (n <? 10)%nat then ascii_of_nat (48 + n) else ascii_of_nat (55 + n).

(** One byte: a space becomes [+], an unreserved byte stays, any other
    byte becomes [%XX] with upper-case hexadecimal digits. *)
Definition encode_byte (b : nat) : string :=
  if (b =? 32)%nat then "+"
  else if unreserved b then String (ascii_of_nat b) ""
  else String "%" (String (hex_digit (b / 16)) (String (hex_digit (b mod 16)) "")).

(** The UTF-8 bytes of a code unit below 256. *)
Definition utf8 (c : ascii) : list nat :=
  let n := nat_of_ascii c in
  if (n <? 128)%nat then [n] else [192 + n / 64; 128 + n mod 64]%nat.

Definition encode_char (c : ascii) : string :=
  String.concat "" (map encode_byte (utf8 c)).

Fixpoint urlencode (s : string) : string :=
  match s with
  | EmptyString => ""
  | String c s' => encode_char c +:+ urlencode s'
  end.

(** [URLSearchParams.prototype.toString] on the list of name-value pairs. *)
Definition toString (l : list (string * string)) : string :=
  join "&" (map (fun p => urlencode (fst p) +:+ "=" +:+ urlencode (snd p)) l).

End URLSearchParams.

Section BuildQuery.
Context `{Engine}.

(** [BaseResource.buildQuery], on the entries [Object.entries(params)] of
    the parameter object in property order (the object model keeps no
    order): each entry whose value is neither [undefined] nor [null] is
    appended, with the string form of its value. *)
Definition buildQuery_append (query : list (string * string))
    (entry : string * JSValue) : list (string * string) :=
  if negb (nullish (snd entry))
  then (query ++ [(fst entry, ToString (snd entry))])%list
  else query.

Definition buildQuery (entries : list (string * JSValue)) : string :=
  URLSearchParams.toString (fold_left buildQuery_append entries []).
End BuildQuery.

(** ** Reading a query string back *)

Definition hex_value (c : ascii) : option nat :=
  let n := nat_of_ascii c in
  if ((48 <=? n) && (n <=? 57))%nat then Some (n - 48)%nat
  else if ((65 <=? n) && (n <=? 70))%nat then Some (n - 55)%nat
  else if ((97 <=? n) && (n <=? 102))%nat then Some (n - 87)%nat
  else None.

(** A byte written [%XY] at the head of a string, and the rest. *)
Definition read_percent (s : string) : option (nat * string) :=
  match s with
  | String p (String h1 (String h2 r)) =>
      if Ascii.eqb p "%"
      then match hex_value h1, hex_value h2 with
           | Some a, Some b => Some (16 * a + b, r)%nat
           | _, _ => None
           end
      else None
  | _ => None
  end.

(** Decodes a form-urlencoded run: [+] is a space, [%XY] a byte, and the
    bytes are read as UTF-8 (code points below 256). *)
Fixpoint urldecode (s : string) : option string :=
  match s with
  | EmptyString => Some ""
  | String c r =>
      if Ascii.eqb c "+" then String " " <$> urldecode r
      else if Ascii.eqb c "%"
      then match r with
           | String h1 (String h2 r2) =>
               match hex_value h1, hex_value h2 with
               | Some a, Some b =>
                   let byte := (16 * a + b)%nat in
                   if (byte <? 128)%nat
                   then String (ascii_of_nat byte) <$> urldecode r2
                   else
                     match r2 with
                     | String p (String h3 (String h4 r3)) =>
                         match hex_value h3, hex_value h4 with
                         | Some a', Some b' =>
                             let byte' := (16 * a' + b')%nat in
                             if Ascii.eqb p "%"
                                && (194 <=? byte)%nat && (byte <=? 195)%nat
                                && (128 <=? byte')%nat && (byte' <=? 191)%nat
                             then String
                                    (ascii_of_nat ((byte - 192) * 64 + (byte' - 128)))
                                    <$> urldecode r3
                             else None
                         | _, _ => None
                         end
                     | _ => None
                     end
               | _, _ => None
               end
           | _ => None
           end
      else String c <$> urldecode r
  end.

(** The pieces of a string between the occurrences of a separator. *)
Fixpoint split_on (sep : ascii) (s : string) : list string :=
  match s with
  | EmptyString => [""]
  | String c r =>
      if Ascii.eqb c sep then "" :: split_on sep r
      else match split_on sep r with
           | x :: xs => String c x :: xs
           | [] => [String c ""]
           end
  end.

(** The parts before and after the first occurrence of a separator. *)
Fixpoint split_first (sep : ascii) (s : string) : string * string :=
  match s with
  | EmptyString => ("", "")
  | String c r =>
      if Ascii.eqb c sep then ("", r)
      else let '(a, b) := split_first sep r in (String c a, b)
  end.

(** The characters a query string is made of: unreserved ones, [+], [%],
    and the separators [&] and [=]. *)
Definition query_char (c : ascii) : bool :=
  URLSearchParams.unreserved (nat_of_ascii c)
  || Ascii.eqb c "+" || Ascii.eqb c "%" || Ascii.eqb c "&" || Ascii.eqb c "=".

(** The entries [buildQuery] keeps, with the string form of the values. *)
Definition kept_entries `{Engine} (entries : list (string * JSValue))
    : list (string * string) :=
  map (fun e => (fst e, ToString (snd e)))
    (List.filter (fun e => negb (nullish (snd e))) entries).

(** Characters other than the separators [&] and [=]. *)
Definition not_separator (c : ascii) : bool :=
  negb (Ascii.eqb c "&" || Ascii.eqb c "=").

Definition parse_pair (p : string) : option (string * string) :=
  let '(k, v) := split_first "=" p in
  k' ← urldecode k; v' ← urldecode v; Some (k', v').

(** The name-value pairs a query string denotes: the non-empty pieces
    between [&], each split at its first [=]. *)
Definition parse_query (s : string) : option (list (string * string)) :=
  mapM parse_pair (filter (fun p => p <> "") (split_on "&" s)).

(** The text of one name-value pair in a query string. *)
Definition pair_text (p : string * string) : string :=
  URLSearchParams.urlencode (fst p) +:+ "=" +:+ URLSearchParams.urlencode (snd p).

(** ** Frames of the resource methods *)

(** The log of sent requests grows by at most one request. *)
Definition at_most_one_sent (w w' : World) : Prop :=
  sent w' = sent w \/ exists config, sent w' = (sent w ++ [config])%list.

(** A computation that sends at most one request and leaves the transport
    object as it is. *)
Definition keeps_transport {A} (m : M A) : Prop :=
  forall w, http (snd (m w)) = http w /\ at_most_one_sent w (snd (m w)).

(** A computation that sends at most one request and leaves the base
    address and the defaults of the transport as they are. *)
Definition keeps_configuration {A} (m : M A) : Prop :=
  forall w,
    HttpClient.baseURL (http (snd (m w))) = HttpClient.baseURL (http w)
    /\ HttpClient.client (http (snd (m w))) = HttpClient.client (http w)
    /\ at_most_one_sent w (snd (m w)).

(** Number of occurrences of a character in a string. *)
Fixpoint count_char (c : ascii) (s : string) : nat :=
  match s with
  | EmptyString => 0
  | String c' s' => (if Ascii.eqb c' c then 1 else 0) + count_char c s'
  end.

(* ===================================================================== *)
(** * Basic facts about the runtime *)
(* ===================================================================== *)

Lemma append_String c (s1 s2 : string) :
  String c s1 +:+ s2 = String c (s1 +:+ s2).
Proof. reflexivity. Qed.

Lemma append_nil_r (s : string) : s +:+ "" = s.
Proof.
  induction s as [|c s IH]; [reflexivity|].
  by rewrite append_String, IH.
Qed.

Lemma append_assoc (s1 s2 s3 : string) :
  (s1 +:+ s2) +:+ s3 = s1 +:+ (s2 +:+ s3).
Proof.
  induction s1 as [|c s1 IH]; [reflexivity|].
  by rewrite !append_String, IH.
Qed.

Lemma append_eq_nil (s1 s2 : string) : s1 +:+ s2 = "" -> s1 = "" /\ s2 = "".
Proof.
  destruct s1; [auto|]. rewrite append_String. discriminate.
Qed.

Lemma append_eq_String (s1 s2 : string) c s :
  s1 +:+ s2 = String c s ->
  (s1 = "" /\ s2 = String c s)
  \/ exists s1', s1 = String c s1' /\ s = s1' +:+ s2.
Proof.
  destruct s1 as [|c1 s1]; [left; auto|].
  rewrite append_String. intros Heq.
  injection Heq as -> <-. right. eauto.
Qed.

Lemma truthy_false_iff v : truthy v = false <-> Falsy v.
Proof.
  split.
  - destruct v as [| |[]|[|z]|s| | |]; simpl; try discriminate; try constructor.
    + intros Hz. apply negb_false_iff, Z.eqb_eq in Hz. subst. constructor.
    + destruct s; simpl; [constructor | discriminate].
  - destruct 1; reflexivity.
Qed.

Lemma truthy_VStr s : truthy (VStr s) = true <-> s <> "".
Proof.
  simpl. rewrite negb_true_iff. split.
  - intros Hne ->. discriminate.
  - intros Hne. destruct s; [congruence | reflexivity].
Qed.

Lemma strict_eq_str_spec v s : strict_eq_str v s = true <-> v = VStr s.
Proof.
  destruct v; simpl; try (split; [discriminate | intros; discriminate]).
  rewrite String.eqb_eq. split; congruence.
Qed.

Lemma nullish_absent o n :
  nullish (default VUndefined (o !! n)) = true <-> absent o n.
Proof.
  unfold absent. destruct (o !! n) as [[]|]; simpl; split; auto;
    try discriminate; intros [?|[?|?]]; congruence.
Qed.

Lemma present_not_absent o n : present o n <-> ~ absent o n.
Proof.
  unfold present, absent. split.
  - intros (v & Hv & Hu & Hn) [?|[?|?]]; congruence.
  - intros Hna. destruct (o !! n) as [v|] eqn:E.
    + exists v. repeat split; auto; intros ->; apply Hna; auto.
    + exfalso. apply Hna. auto.
Qed.

(* ===================================================================== *)
(** * [validateRequired] *)
(* ===================================================================== *)

Section PropertyReads.
Context `{Engine}.

Lemma assoc_None n table : assoc n table = None <-> n ∉ map fst table.
Proof.
  induction table as [|[m x] table IH]; simpl.
  - split; [intros _; apply not_elem_of_nil | reflexivity].
  - rewrite not_elem_of_cons.
    destruct (String.eqb_spec m n) as [->|Hne].
    + split; [discriminate | intros [Hn _]; congruence].
    + rewrite IH. split; [intros Hn; split; [congruence | exact Hn] | tauto].
Qed.

Lemma assoc_Forall (P : JSValue -> Prop) n table x :
  Forall (fun p => P (snd p)) table -> assoc n table = Some x -> P x.
Proof.
  induction 1 as [|[m y] table Hy _ IH]; simpl; [discriminate|].
  destruct (String.eqb m n); [|exact IH].
  intros Hx. injection Hx as <-. exact Hy.
Qed.

(** A plain object inherits exactly the names of [Object.prototype]. *)
Lemma inherited_object o n :
  inherited (VObj o) n = None <-> n ∉ Object_prototype_names.
Proof.
  unfold inherited, Object_prototype_names. rewrite not_elem_of_cons.
  destruct (String.eqb_spec n "__proto__") as [->|Hne].
  - split; [discriminate | intros [Hn _]; congruence].
  - change (lookup_chain n (prototype_chain (VObj o)))
      with (match assoc n Object_prototype with
            | Some x => Some x
            | None => None
            end).
    rewrite <- assoc_None.
    destruct (assoc n Object_prototype).
    + split; [discriminate | intros [_ Hn]; discriminate].
    + split; [intros _; split; [exact Hne | reflexivity] | reflexivity].
Qed.

Lemma lookup_chain_Forall (P : JSValue -> Prop) n chain x :
  Forall (Forall (fun p : string * JSValue => P (snd p))) chain ->
  lookup_chain n chain = Some x -> P x.
Proof.
  induction 1 as [|table chain Htable _ IH]; simpl; [discriminate|].
  destruct (assoc n table) as [y|] eqn:Ha; [|exact IH].
  intros Hx. injection Hx as <-. by eapply assoc_Forall.
Qed.

(** Whatever a value inherits is neither [undefined] nor [null]. *)
Lemma inherited_not_nullish v n x :
  nullish v = false -> inherited v n = Some x -> nullish x = false.
Proof.
  intros Hv. unfold inherited. destruct (String.eqb n "__proto__").
  - intros Hx. injection Hx as <-.
    destruct v; try discriminate; reflexivity.
  - apply (lookup_chain_Forall (fun y => nullish y = false)).
    assert (forallb (forallb (fun p : string * JSValue => negb (nullish (snd p))))
              (prototype_chain v) = true) as Hall
      by (destruct v; vm_compute; reflexivity).
    rewrite forallb_forall in Hall.
    apply Forall_forall. intros table Ht.
    apply list_elem_of_In, Hall in Ht. rewrite forallb_forall in Ht.
    apply Forall_forall. intros p Hp.
    apply list_elem_of_In, Ht in Hp. by apply negb_true_iff.
Qed.

Lemma GetProp_object o n :
  GetProp (VObj o) n
  = Ok (match o !! n with
        | Some x => x
        | None => default VUndefined (inherited (VObj o) n)
        end).
Proof. unfold GetProp, GetOwnProperty. destruct (o !! n); reflexivity. Qed.

(** Reading a name that [Object.prototype] lacks gives the own property
    of the object, or [undefined]. *)
Lemma GetProp_field o n :
  inherited (VObj o) n = None ->
  GetProp (VObj o) n = Ok (default VUndefined (o !! n)).
Proof. intros Hn. rewrite GetProp_object, Hn. destruct (o !! n); reflexivity. Qed.

Lemma GetProp_own o n x : o !! n = Some x -> GetProp (VObj o) n = Ok x.
Proof. intros Hx. rewrite GetProp_object, Hx. reflexivity. Qed.

Lemma nullish_inherited v n :
  nullish v = false ->
  nullish (default VUndefined (inherited v n))
  = bool_decide (inherited v n = None).
Proof.
  intros Hv. destruct (inherited v n) as [x|] eqn:Hi; simpl.
  - rewrite (inherited_not_nullish v n x Hv Hi). reflexivity.
  - reflexivity.
Qed.

(** Reading a name of an object gives [undefined] or [null] exactly when
    the name is unset. *)
Lemma nullish_unset o n :
  nullish (match o !! n with
           | Some x => x
           | None => default VUndefined (inherited (VObj o) n)
           end) = true
  <-> unset o n.
Proof.
  unfold unset. destruct (o !! n) as [x|] eqn:Ho.
  - destruct x; simpl; split; auto; try discriminate;
      intros [?|[?|[? _]]]; congruence.
  - destruct (inherited (VObj o) n) as [x|] eqn:Hi; simpl.
    + rewrite (inherited_not_nullish (VObj o) n x eq_refl Hi).
      split; [discriminate|]. intros [?|[?|[_ Hout]]]; [congruence..|].
      apply (proj2 (inherited_object o n)) in Hout. congruence.
    + split; [|reflexivity]. intros _. right. right. split; [reflexivity|].
      exact (proj1 (inherited_object o n) Hi).
Qed.

(** The callback of the filter, on an object. *)
Lemma is_missing_object o n :
  BaseResource.is_missing (VObj o) n = Ok (bool_decide (unset o n)).
Proof.
  unfold BaseResource.is_missing. rewrite GetProp_object. simpl. f_equal.
  symmetry.
  destruct (nullish match o !! n with
                    | Some x => x
                    | None => default VUndefined (inherited (VObj o) n)
                    end) eqn:Hn.
  - apply bool_decide_eq_true. by apply nullish_unset.
  - apply bool_decide_eq_false. intros Hu. apply nullish_unset in Hu.
    congruence.
Qed.

(** On an object, the filter of the sources computes the unset names. *)
Lemma Array_filter_object o required :
  BaseResource.Array_filter (BaseResource.is_missing (VObj o)) required
  = Ok (filter (unset o) required).
Proof.
  induction required as [|n required IH]; [reflexivity|].
  simpl. rewrite is_missing_object, IH. simpl.
  case_bool_decide as Hu.
  - by rewrite filter_cons_True.
  - by rewrite filter_cons_False.
Qed.

Lemma validateRequired_object o required :
  BaseResource.validateRequired (VObj o) required
  = match filter (unset o) required with
    | [] => Ok tt
    | missing =>
        Throw (PlainError ("Missing required parameters: " +:+ join ", " missing))
    end.
Proof.
  unfold BaseResource.validateRequired. rewrite Array_filter_object. simpl.
  destruct (filter (unset o) required); reflexivity.
Qed.

Lemma present_not_unset o n : present o n -> ~ unset o n.
Proof.
  intros (v & Hv & Hu & Hn) [?|[?|[? _]]]; congruence.
Qed.

(** For a name that [Object.prototype] lacks, unset means absent. *)
Lemma unset_absent o n :
  n ∉ Object_prototype_names -> unset o n <-> absent o n.
Proof. unfold unset, absent. tauto. Qed.

Lemma unset_names_plain o required :
  Forall (fun n => n ∉ Object_prototype_names) required ->
  filter (unset o) required = missing_names o required.
Proof.
  unfold missing_names. induction 1 as [|n required Hn _ IH]; [reflexivity|].
  destruct (decide (unset o n)) as [Hu|Hu].
  - rewrite !filter_cons_True; [by rewrite IH | by apply unset_absent | done].
  - rewrite !filter_cons_False; [exact IH | | done].
    intros Ha. by apply Hu, unset_absent.
Qed.

Lemma plain_names_spec names :
  plain_names names = true ->
  Forall (fun n => n ∉ Object_prototype_names) names.
Proof.
  unfold plain_names. rewrite forallb_forall, Forall_forall.
  intros Hall n Hn. apply list_elem_of_In, Hall, negb_true_iff in Hn.
  by apply bool_decide_eq_false in Hn.
Qed.

Lemma validateRequired_passes o required :
  Forall (present o) required ->
  BaseResource.validateRequired (VObj o) required = Ok tt.
Proof.
  intros Hall. rewrite validateRequired_object.
  replace (filter (unset o) required) with (@nil string); [reflexivity|].
  symmetry. induction Hall as [|n required Hn _ IH]; [reflexivity|].
  rewrite filter_cons_False; [exact IH | by apply present_not_unset].
Qed.
End PropertyReads.

Lemma separated_tail_join n rest :
  join ", " (n :: rest) = n +:+ separated_tail rest.
Proof.
  unfold join. revert n. induction rest as [|m rest IH]; intros n.
  - simpl. by rewrite append_nil_r.
  - change (String.concat ", " (n :: m :: rest))
      with (n +:+ ", " +:+ String.concat ", " (m :: rest)).
    rewrite IH. reflexivity.
Qed.

Lemma separated_tail_fold rest text :
  fold_left (fun text m => text +:+ ", " +:+ m) rest text
  = text +:+ separated_tail rest.
Proof.
  revert text. induction rest as [|m rest IH]; intros text; simpl.
  - by rewrite append_nil_r.
  - rewrite IH. by rewrite !append_assoc.
Qed.

(** [Array.prototype.join] with [", "] writes the names one after the
    other, separated by a comma and a space. *)
Lemma join_comma_separated names : join ", " names = comma_separated names.
Proof.
  destruct names as [|n rest]; [reflexivity|].
  rewrite separated_tail_join. unfold comma_separated.
  by rewrite separated_tail_fold.
Qed.

(** C4.  For every parameter object and every list of required names of
    which at least one is unset (reading it gives [undefined] or [null]:
    the object holds one of the two under the name, or has no such
    property and inherits none from [Object.prototype]),
    [validateRequired] fails with one plain error whose message is
    ["Missing required parameters: "] followed by the missing names,
    separated by a comma and a space; the names listed are exactly the
    unset required ones, every one of them, in the order of the required
    list. *)
Theorem validateRequired_reports_all_missing
    (E : Engine) (o : gmap string JSValue) (required : list string) :
  (exists n, n ∈ required /\ unset o n) ->
  exists missing,
    BaseResource.validateRequired (VObj o) required
    = Throw (PlainError
               ("Missing required parameters: " +:+ comma_separated missing))
    /\ missing = filter (unset o) required
    /\ (forall n, n ∈ missing <-> n ∈ required /\ unset o n)
    /\ missing `sublist_of` required.
Proof.
  intros (n & Hin & Hun).
  exists (filter (unset o) required). split; [|split; [reflexivity|split]].
  - rewrite validateRequired_object, <- join_comma_separated.
    destruct (filter (unset o) required) as [|m ms] eqn:Hf; [|reflexivity].
    assert (n ∈ filter (unset o) required) as Hm
      by (apply list_elem_of_filter; auto).
    rewrite Hf in Hm. by apply not_elem_of_nil in Hm.
  - intros m. rewrite list_elem_of_filter. tauto.
  - apply sublist_filter.
Qed.

Lemma validateRequired_reports_all_missing_witness :
  @BaseResource.validateRequired sampleEngine
    (VObj {[ "questionTitle" := VStr "Test"; "outcomeType" := VNull ]})
    ["questionTitle"; "description"; "constructor"; "outcomeType";
     "resolutionDateTime"]
  = Throw (PlainError
             "Missing required parameters: description, outcomeType, resolutionDateTime").
Proof.
  destruct (validateRequired_reports_all_missing sampleEngine
              {[ "questionTitle" := VStr "Test"; "outcomeType" := VNull ]}
              ["questionTitle"; "description"; "constructor"; "outcomeType";
               "resolutionDateTime"])
    as (missing & Hthrow & Hmissing & _).
  - exists "description". split.
    + apply list_elem_of_In. simpl. auto.
    + right. right. split; [vm_compute; reflexivity|].
      apply (bool_decide_eq_false_1 _). vm_compute. reflexivity.
  - rewrite Hthrow, Hmissing. vm_compute. reflexivity.
Defined.

(** C5.  The classification predicates of an error depend on its
    [statusCode] and [code] only, and hold exactly as documented:
    network iff the code is ["NETWORK_ERROR"], auth iff the status is 401
    or 403, validation iff 400, not-found iff 404, server iff at least
    500. *)
Theorem predicates_classify (e : Errors.SocialPredictError) :
  (Errors.isNetworkError e = true <-> Errors.code e = VStr "NETWORK_ERROR")
  /\ (Errors.isAuthError e = true
      <-> Errors.statusCode e = 401 \/ Errors.statusCode e = 403)
  /\ (Errors.isValidationError e = true <-> Errors.statusCode e = 400)
  /\ (Errors.isNotFoundError e = true <-> Errors.statusCode e = 404)
  /\ (Errors.isServerError e = true <-> 500 <= Errors.statusCode e)
  /\ (forall e' : Errors.SocialPredictError,
        Errors.statusCode e' = Errors.statusCode e ->
        Errors.code e' = Errors.code e ->
        Errors.isNetworkError e' = Errors.isNetworkError e
        /\ Errors.isAuthError e' = Errors.isAuthError e
        /\ Errors.isValidationError e' = Errors.isValidationError e
        /\ Errors.isNotFoundError e' = Errors.isNotFoundError e
        /\ Errors.isServerError e' = Errors.isServerError e).
Proof.
  unfold Errors.isNetworkError, Errors.isAuthError, Errors.isValidationError,
    Errors.isNotFoundError, Errors.isServerError.
  split; [apply strict_eq_str_spec|].
  split; [rewrite orb_true_iff; lia|].
  split; [lia|]. split; [lia|]. split; [lia|].
  intros e' Hstatus Hcode. rewrite Hstatus, Hcode. auto.
Qed.

(** C8.  [validateRequired] goes by presence, not truthiness.  It passes
    exactly when every required name is one the object holds with a value
    other than [undefined] and [null], or one it has no property for and
    inherits from [Object.prototype]; a name holding such a value -- in
    particular [0], [false] or the empty string -- is never among the
    missing names the filter of [validateRequired] computes; and
    [placeBet({marketId: 1, amount: 0, outcome: "yes"})] passes the
    required-field check and fails the positivity rule only. *)
Theorem validateRequired_presence_not_truthiness (E : Engine) :
  (forall o required,
      BaseResource.validateRequired (VObj o) required = Ok tt
      <-> Forall (fun n => present o n
                           \/ (o !! n = None /\ n ∈ Object_prototype_names))
            required)
  /\ (forall o required n v,
        o !! n = Some v -> v <> VUndefined -> v <> VNull ->
        exists missing,
          BaseResource.Array_filter (BaseResource.is_missing (VObj o)) required
          = Ok missing
          /\ n ∉ missing)
  /\ (forall o required n,
        o !! n = Some (VNum (Num 0)) \/ o !! n = Some (VBool false)
          \/ o !! n = Some (VStr "") ->
        present o n
        /\ exists missing,
             BaseResource.Array_filter (BaseResource.is_missing (VObj o))
               required
             = Ok missing
             /\ n ∉ missing)
  /\ (let betData :=
        VObj (<[ "marketId" := VNum (Num 1) ]>
             (<[ "amount" := VNum (Num 0) ]>
             (<[ "outcome" := VStr "yes" ]> ∅))) in
      BaseResource.validateRequired betData ["marketId"; "amount"; "outcome"]
      = Ok tt
      /\ forall (N : Axios.Network) (w : World),
           BettingResource.placeBet betData w
           = (Throw (PlainError "Bet amount must be greater than 0"), w)).
Proof.
  assert (forall o required n v,
             o !! n = Some v -> v <> VUndefined -> v <> VNull ->
             exists missing,
               BaseResource.Array_filter (BaseResource.is_missing (VObj o))
                 required
               = Ok missing
               /\ n ∉ missing) as Hheld.
  { intros o required n v Hv Hu Hn. exists (filter (unset o) required).
    split; [apply Array_filter_object|].
    intros Hin. apply list_elem_of_filter in Hin as [Hun _].
    destruct Hun as [?|[?|[? _]]]; congruence. }
  split.
  { intros o required. rewrite validateRequired_object.
    assert (filter (unset o) required = []
            <-> Forall (fun n => present o n
                                 \/ (o !! n = None /\ n ∈ Object_prototype_names))
                  required) as Hnil.
    { induction required as [|n required IH].
      - split; [constructor | reflexivity].
      - rewrite Forall_cons. destruct (decide (unset o n)) as [Hu|Hu].
        + rewrite filter_cons_True by done. split; [discriminate|].
          intros [[Hp|[Hnone Hin]] _].
          * by apply present_not_unset in Hp.
          * destruct Hu as [?|[?|[_ ?]]]; [congruence..|contradiction].
        + rewrite filter_cons_False by done. rewrite IH.
          split; [|tauto]. intros Hall. split; [|exact Hall].
          destruct (o !! n) as [v|] eqn:Ho.
          * left. exists v. split; [exact Ho|].
            split; intros ->; apply Hu; unfold unset; rewrite Ho; auto.
          * right. split; [reflexivity|].
            destruct (decide (n ∈ Object_prototype_names)) as [Hin|Hout];
              [exact Hin|].
            exfalso. apply Hu. unfold unset. rewrite Ho. auto. }
    rewrite <- Hnil.
    destruct (filter (unset o) required); split; congruence. }
  split; [exact Hheld|].
  split.
  - intros o required n Hv. split.
    + destruct Hv as [Hv|[Hv|Hv]]; eexists; (split; [exact Hv|]);
        split; discriminate.
    + destruct Hv as [Hv|[Hv|Hv]]; eapply Hheld; eauto; discriminate.
  - simpl. split; [vm_compute; reflexivity|].
    intros N w. vm_compute. reflexivity.
Qed.

(** C9.  The single-argument read methods test their argument for
    truthiness: on every falsy value -- [undefined], [null], [false], [0],
    [NaN] and the empty string -- [markets.get], [markets.getBets] and
    [betting.getUserPosition] throw "Market ID is required" and
    [markets.search] throws "Search query is required", leaving the
    transport and the log of sent requests untouched. *)
Theorem read_methods_guard_by_truthiness
    (E : Engine) (N : Axios.Network) (v : JSValue) (w : World) :
  Falsy v ->
  MarketsResource.get v w = (Throw (PlainError "Market ID is required"), w)
  /\ MarketsResource.getBets v w
     = (Throw (PlainError "Market ID is required"), w)
  /\ BettingResource.getUserPosition v w
     = (Throw (PlainError "Market ID is required"), w)
  /\ MarketsResource.search v w
     = (Throw (PlainError "Search query is required"), w).
Proof.
  intros Hf. apply truthy_false_iff in Hf.
  unfold MarketsResource.get, MarketsResource.getBets,
    BettingResource.getUserPosition, MarketsResource.search.
  rewrite Hf. simpl. auto.
Qed.

Lemma read_methods_guard_by_truthiness_witness :
  Falsy (VNum (Num 0))
  /\ @MarketsResource.get sampleEngine offline (VNum (Num 0)) fresh
     = (Throw (PlainError "Market ID is required"), fresh)
  /\ Falsy (VStr "")
  /\ @MarketsResource.search sampleEngine offline (VStr "") fresh
     = (Throw (PlainError "Search query is required"), fresh).
Proof.
  split; [constructor|]. split.
  - apply (read_methods_guard_by_truthiness sampleEngine offline
             (VNum (Num 0)) fresh). constructor.
  - split; [constructor|].
    apply (read_methods_guard_by_truthiness sampleEngine offline
             (VStr "") fresh). constructor.
Defined.

(* ===================================================================== *)
(** * The transport: token injection and token management *)
(* ===================================================================== *)

Section TransportFacts.
Context `{Engine} `{Axios.Network}.

(** Every verb method hands exactly one configuration to the network:
    its own, decorated by the request interceptor; it returns the body of
    the answer or throws what the response interceptor throws. *)
Lemma perform_unfold (v : VerbCall) (w : World) :
  perform v w =
  let config := HttpClient.onRequest (http w) (config_of (http w) v) in
  let w' := {| http := http w; sent := (sent w ++ [config])%list |} in
  match Axios.dispatch (sent w) config with
  | Axios.Fulfilled r => (Ok (Axios.data r), w')
  | Axios.Rejected e => (Throw (HttpClient.onResponseError e), w')
  end.
Proof.
  destruct v; simpl;
    unfold Transport.get, Transport.post, Transport.put, Transport.patch,
      Transport.delete, bind, Transport.call; simpl;
    match goal with |- context [Axios.dispatch ?l ?c] =>
      destruct (Axios.dispatch l c) end; reflexivity.
Qed.

Lemma perform_sent (v : VerbCall) (w : World) :
  sent (snd (perform v w))
  = (sent w ++ [HttpClient.onRequest (http w) (config_of (http w) v)])%list
  /\ http (snd (perform v w)) = http w.
Proof.
  rewrite perform_unfold. simpl.
  match goal with |- context [Axios.dispatch ?l ?c] =>
    destruct (Axios.dispatch l c) end; simpl; auto.
Qed.

Lemma config_of_headers (this : HttpClient.t) (v : VerbCall) :
  Axios.headers (config_of this v)
  = Axios.defaults_headers (HttpClient.client this).
Proof. destruct v; reflexivity. Qed.

Lemma onRequest_falsy_token (this : HttpClient.t) (config : Axios.RequestConfig) :
  truthy (HttpClient.token this) = false ->
  HttpClient.onRequest this config = config.
Proof. intros Hf. unfold HttpClient.onRequest. rewrite Hf. reflexivity. Qed.

Lemma onRequest_injects (this : HttpClient.t) (config : Axios.RequestConfig) s :
  HttpClient.token this = VStr s -> s <> "" ->
  Axios.headers config !! "Authorization" = None ->
  Axios.headers (HttpClient.onRequest this config)
  = <[ "Authorization" := "Bearer " +:+ s ]> (Axios.headers config).
Proof.
  intros Ht Hs Hh. unfold HttpClient.onRequest, HttpClient.no_Authorization.
  rewrite Ht, Hh. apply truthy_VStr in Hs. rewrite Hs. reflexivity.
Qed.
End TransportFacts.

(** C2, as amended.  For every request issued through a verb method while
    the token is a non-empty string and the headers of the request declare
    no Authorization entry, the request handed to the network carries
    [Authorization: Bearer <token>] and its other headers are unchanged;
    for every request issued while no token is set (the token is [null]),
    the headers are those of the client's defaults, nothing added. *)
Theorem bearer_token_injected
    (E : Engine) (N : Axios.Network) (v : VerbCall) (w : World) :
  exists config,
    sent (snd (perform v w)) = (sent w ++ [config])%list
    /\ (forall s,
          HttpClient.token (http w) = VStr s -> s <> "" ->
          Axios.headers (config_of (http w) v) !! "Authorization" = None ->
          Axios.headers config !! "Authorization" = Some ("Bearer " +:+ s)
          /\ forall k, k <> "Authorization" ->
               Axios.headers config !! k
               = Axios.headers (config_of (http w) v) !! k)
    /\ (HttpClient.token (http w) = VNull ->
        Axios.headers config = Axios.headers (config_of (http w) v)).
Proof.
  exists (HttpClient.onRequest (http w) (config_of (http w) v)).
  split; [apply perform_sent|]. split.
  - intros s Ht Hs Hh. rewrite (onRequest_injects _ _ s Ht Hs Hh). split.
    + apply lookup_insert_eq.
    + intros k Hk. by apply lookup_insert_ne.
  - intros Ht. rewrite onRequest_falsy_token; [reflexivity|].
    rewrite Ht. reflexivity.
Qed.

Lemma bearer_token_injected_witness :
  let w := snd (SocialPredictClient.setToken (VStr "test-token") fresh) in
  exists config,
    sent (snd (@perform sampleEngine offline (GET "/test" VUndefined) w)) = [config]
    /\ Axios.headers config !! "Authorization" = Some "Bearer test-token".
Proof.
  intros w.
  destruct (bearer_token_injected sampleEngine offline (GET "/test" VUndefined) w)
    as (config & Hsent & Hset & _).
  exists config. split; [exact Hsent|].
  apply (Hset "test-token"); [reflexivity | discriminate | vm_compute; reflexivity].
Defined.

(** C2 as stated fails: after [setToken("")] the token is not [null] and
    the request declares no Authorization header, yet the request sent by
    [get("/v0/home")] carries none. *)
Lemma empty_token_not_injected :
  let w := snd (SocialPredictClient.setToken (VStr "") fresh) in
  HttpClient.token (http w) <> VNull
  /\ Axios.headers (config_of (http w) (GET "/v0/home" VUndefined))
       !! "Authorization" = None
  /\ exists config,
       sent (snd (@perform sampleEngine offline (GET "/v0/home" VUndefined) w))
       = [config]
       /\ Axios.headers config !! "Authorization" = None.
Proof.
  simpl. split; [discriminate|]. split; [vm_compute; reflexivity|].
  eexists. split; [vm_compute; reflexivity|]. vm_compute. reflexivity.
Qed.

Lemma setToken_frame (token : JSValue) (w : World) :
  exists w',
    SocialPredictClient.setToken token w = (Ok tt, w')
    /\ HttpClient.token (http w') = token
    /\ HttpClient.baseURL (http w') = HttpClient.baseURL (http w)
    /\ HttpClient.client (http w') = HttpClient.client (http w)
    /\ sent w' = sent w.
Proof. eexists. split; [reflexivity|]. simpl. auto. Qed.

Lemma clearToken_frame (w : World) :
  exists w',
    SocialPredictClient.clearToken w = (Ok tt, w')
    /\ HttpClient.token (http w') = VNull
    /\ HttpClient.baseURL (http w') = HttpClient.baseURL (http w)
    /\ HttpClient.client (http w') = HttpClient.client (http w)
    /\ sent w' = sent w.
Proof. eexists. split; [reflexivity|]. simpl. auto. Qed.

(** C7, as amended.  [setToken(token)] replaces the token and
    [clearToken()] sets it to [null]; neither sends a request and neither
    changes the base address, the timeout or the default headers.  After
    [setToken("T")] then [clearToken()], [isAuthenticated()] returns false
    and the transport adds no Authorization header to a subsequent
    request: the request carries exactly the client's default headers,
    hence no Authorization header unless those defaults declare one. *)
Theorem token_management_frame
    (E : Engine) (N : Axios.Network) (w : World) (T : JSValue) :
  (exists w1,
      SocialPredictClient.setToken T w = (Ok tt, w1)
      /\ HttpClient.token (http w1) = T
      /\ HttpClient.baseURL (http w1) = HttpClient.baseURL (http w)
      /\ HttpClient.client (http w1) = HttpClient.client (http w)
      /\ sent w1 = sent w)
  /\ (exists w2,
        SocialPredictClient.clearToken w = (Ok tt, w2)
        /\ HttpClient.token (http w2) = VNull
        /\ HttpClient.baseURL (http w2) = HttpClient.baseURL (http w)
        /\ HttpClient.client (http w2) = HttpClient.client (http w)
        /\ sent w2 = sent w)
  /\ (let w' := snd ((SocialPredictClient.setToken T ;;
                      SocialPredictClient.clearToken)%js w) in
      SocialPredictClient.isAuthenticated w' = (Ok false, w')
      /\ forall v : VerbCall,
           exists config,
             sent (snd (perform v w')) = (sent w ++ [config])%list
             /\ Axios.headers config
                = Axios.defaults_headers (HttpClient.client (http w))
             /\ (Axios.defaults_headers (HttpClient.client (http w))
                   !! "Authorization" = None ->
                 Axios.headers config !! "Authorization" = None)).
Proof.
  split; [apply setToken_frame|]. split; [apply clearToken_frame|].
  simpl. split; [reflexivity|].
  intros v.
  set (w' := {| http := HttpClient.clearToken (HttpClient.setToken (http w) T);
                sent := sent w |}).
  exists (HttpClient.onRequest (http w') (config_of (http w') v)).
  split; [exact (proj1 (perform_sent v w'))|].
  rewrite onRequest_falsy_token by reflexivity.
  rewrite config_of_headers. simpl. auto.
Qed.

(** C7 as stated fails: on a client constructed with a default
    Authorization header, the request sent after [setToken("T")] and
    [clearToken()] still carries that header. *)
Lemma default_Authorization_survives_clearToken :
  let options :=
    {| HttpClient.opt_token := VUndefined; HttpClient.opt_timeout := VUndefined;
       HttpClient.opt_headers := {[ "Authorization" := "Basic dXNlcjpwYXNz" ]} |} in
  let w0 := SocialPredictClient.constructor None (Some options) in
  let w' := snd ((SocialPredictClient.setToken (VStr "T") ;;
                  SocialPredictClient.clearToken)%js w0) in
  SocialPredictClient.isAuthenticated w' = (Ok false, w')
  /\ exists config,
       sent (snd (@perform sampleEngine offline (GET "/v0/home" VUndefined) w'))
       = [config]
       /\ Axios.headers config !! "Authorization" = Some "Basic dXNlcjpwYXNz".
Proof.
  simpl. split; [reflexivity|].
  eexists. split; [vm_compute; reflexivity|]. vm_compute. reflexivity.
Qed.

(** C10.  An empty-string token behaves as no token: the constructor
    stores [null] for the option [token: ""], exactly as when the option
    is omitted; while the token is [""] or [null] the request interceptor
    leaves every configuration unchanged, [isAuthenticated()] returns
    false and every verb call has the same result and sends the same
    request under either; and for a token that is a string,
    [isAuthenticated()] returns true, and a request without an
    Authorization header receives one, exactly when the string is not
    empty. *)
Theorem empty_token_is_no_token (E : Engine) (N : Axios.Network) :
  (forall baseURL timeout headers,
      HttpClient.token
        (HttpClient.constructor baseURL
           {| HttpClient.opt_token := VStr ""; HttpClient.opt_timeout := timeout;
              HttpClient.opt_headers := headers |}) = VNull
      /\ HttpClient.constructor baseURL
           {| HttpClient.opt_token := VStr ""; HttpClient.opt_timeout := timeout;
              HttpClient.opt_headers := headers |}
         = HttpClient.constructor baseURL
             {| HttpClient.opt_token := VUndefined;
                HttpClient.opt_timeout := timeout;
                HttpClient.opt_headers := headers |})
  /\ (forall baseURL timeout headers,
        HttpClient.token
          (http (SocialPredictClient.constructor baseURL
                   (Some {| HttpClient.opt_token := VStr "";
                            HttpClient.opt_timeout := timeout;
                            HttpClient.opt_headers := headers |}))) = VNull)
  /\ (forall this config,
        HttpClient.token this = VStr "" \/ HttpClient.token this = VNull ->
        HttpClient.onRequest this config = config)
  /\ (forall w,
        HttpClient.token (http w) = VStr "" \/ HttpClient.token (http w) = VNull ->
        SocialPredictClient.isAuthenticated w = (Ok false, w))
  /\ (forall w v,
        let w_empty := snd (SocialPredictClient.setToken (VStr "") w) in
        let w_null := snd (SocialPredictClient.clearToken w) in
        fst (perform v w_empty) = fst (perform v w_null)
        /\ sent (snd (perform v w_empty)) = sent (snd (perform v w_null)))
  /\ (forall w s,
        HttpClient.token (http w) = VStr s ->
        (SocialPredictClient.isAuthenticated w = (Ok true, w) <-> s <> "")
        /\ forall config,
             Axios.headers config !! "Authorization" = None ->
             (Axios.headers (HttpClient.onRequest (http w) config)
                !! "Authorization" = Some ("Bearer " +:+ s) <-> s <> "")).
Proof.
  split; [intros; split; reflexivity|].
  split; [reflexivity|].
  split.
  { intros this config [Ht|Ht]; apply onRequest_falsy_token; rewrite Ht;
      reflexivity. }
  split.
  { intros w [Ht|Ht]; unfold SocialPredictClient.isAuthenticated, bind,
      Transport.token, ret; rewrite Ht; reflexivity. }
  split.
  { intros w v. simpl. rewrite !perform_unfold. simpl.
    rewrite !onRequest_falsy_token by reflexivity.
    replace (config_of (HttpClient.setToken (http w) (VStr "")) v)
      with (config_of (HttpClient.clearToken (http w)) v)
      by (destruct v; reflexivity).
    match goal with |- context [Axios.dispatch ?l ?c] =>
      destruct (Axios.dispatch l c) end; simpl; auto. }
  intros w s Ht. split.
  - unfold SocialPredictClient.isAuthenticated, bind, Transport.token, ret.
    rewrite Ht, <- truthy_VStr. split; [congruence | intros ->; reflexivity].
  - intros config Hh. split.
    + intros Hsome Hs. subst s.
      rewrite onRequest_falsy_token in Hsome by (rewrite Ht; reflexivity).
      congruence.
    + intros Hs. rewrite (onRequest_injects _ _ s Ht Hs Hh).
      apply lookup_insert_eq.
Qed.

(* ===================================================================== *)
(** * The transport: classification of failures *)
(* ===================================================================== *)

Section Classification.
Context `{Engine}.




End Classification.




(** A response whose body is [null] makes the interceptor itself fail
    with a [TypeError]: the hypothesis on the body above is needed. *)
Lemma null_body_raises_TypeError :
  fst (@perform sampleEngine (answering 500 VNull) (GET "/test" VUndefined) fresh)
  = Throw (TypeError "Cannot read properties of null (reading 'message')").
Proof. vm_compute. reflexivity. Qed.

(* ===================================================================== *)
(** * Date normalisation and [markets.create] *)
(* ===================================================================== *)

(** The instant used by the test suite, [new Date('2025-10-15T12:00:00Z')],
    and a few landmarks of the calendar. *)
Example toISOString_test_instant :
  Date_toISOString 1760529600000 = "2025-10-15T12:00:00.000Z".
Proof. vm_compute. reflexivity. Qed.

Example toISOString_epoch : Date_toISOString 0 = "1970-01-01T00:00:00.000Z".
Proof. vm_compute. reflexivity. Qed.

Example toISOString_before_epoch :
  Date_toISOString (-1) = "1969-12-31T23:59:59.999Z".
Proof. vm_compute. reflexivity. Qed.

Example toISOString_leap_day :
  Date_toISOString 1709251199999 = "2024-02-29T23:59:59.999Z".
Proof. vm_compute. reflexivity. Qed.

Example toISOString_latest :
  Date_toISOString 8640000000000000 = "+275760-09-13T00:00:00.000Z".
Proof. vm_compute. reflexivity. Qed.

(** ** The rendering of a date denotes its instant *)

Lemma digit_value_digit z : digit_value (digit z) = Some (z mod 10).
Proof.
  unfold digit_value, digit.
  assert (0 <= z mod 10 < 10) as Hr by (apply Z.mod_pos_bound; lia).
  rewrite nat_ascii_embedding by lia.
  rewrite Nat2Z.inj_add, Z2Nat.id by lia.
  change (Z.of_nat 48) with 48.
  destruct ((48 <=? 48 + z mod 10) && (48 + z mod 10 <=? 57)) eqn:Hb.
  - f_equal. lia.
  - apply andb_false_iff in Hb as [Hb|Hb]; lia.
Qed.

Lemma digit_not_char z (c : ascii) :
  (nat_of_ascii c < 48)%nat -> Ascii.eqb (digit z) c = false.
Proof.
  intros Hc. apply Ascii.eqb_neq. intros Heq.
  apply (f_equal nat_of_ascii) in Heq. unfold digit in Heq.
  assert (0 <= z mod 10 < 10) as Hr by (apply Z.mod_pos_bound; lia).
  rewrite nat_ascii_embedding in Heq by lia. lia.
Qed.

Lemma read_digits_digit n acc z s :
  read_digits (S n) acc (String (digit z) s)
  = read_digits n (10 * acc + z mod 10) s.
Proof.
  change (read_digits (S n) acc (String (digit z) s))
    with (match digit_value (digit z) with
          | Some d => read_digits n (10 * acc + d) s
          | None => None
          end).
  by rewrite digit_value_digit.
Qed.

Lemma pad_onto_append w : forall z acc rest,
  pad_onto w z acc +:+ rest = pad_onto w z (acc +:+ rest).
Proof.
  induction w as [|w IH]; intros z acc rest; [reflexivity|].
  change (pad_onto (S w) z acc) with (pad_onto w (z / 10) (String (digit z) acc)).
  rewrite IH. reflexivity.
Qed.

Lemma read_digits_pad_onto w : forall n z acc s,
  read_digits (w + n) acc (pad_onto w z s)
  = read_digits n (acc * 10 ^ Z.of_nat w + z mod 10 ^ Z.of_nat w) s.
Proof.
  induction w as [|w IH]; intros n z acc s.
  - change (read_digits n acc s = read_digits n (acc * 1 + z mod 1) s).
    f_equal. rewrite Z.mod_1_r. lia.
  - change (pad_onto (S w) z s) with (pad_onto w (z / 10) (String (digit z) s)).
    replace (S w + n)%nat with (w + S n)%nat by lia.
    rewrite IH, read_digits_digit. f_equal.
    rewrite Nat2Z.inj_succ, Z.pow_succ_r by lia.
    assert (0 < 10 ^ Z.of_nat w) by (apply Z.pow_pos_nonneg; lia).
    rewrite Z.rem_mul_r by lia. lia.
Qed.

Lemma read_digits_pad w z rest :
  0 <= z < 10 ^ Z.of_nat w ->
  read_digits w 0 (pad w z +:+ rest) = Some (z, rest).
Proof.
  intros Hz. unfold pad. rewrite pad_onto_append.
  replace w with (w + 0)%nat at 1 by lia.
  rewrite read_digits_pad_onto.
  change (Some (0 * 10 ^ Z.of_nat w + z mod 10 ^ Z.of_nat w, rest) = Some (z, rest)).
  rewrite Z.mod_small by lia. reflexivity.
Qed.

Lemma days_from_civil_from_days days :
  let '(y, m, d) := civil_from_days days in
  days_from_civil y m d = days /\ 1 <= m <= 12 /\ 1 <= d <= 31
  /\ (days + 719468) / 146097 * 400 <= y <= (days + 719468) / 146097 * 400 + 400.
Proof.
  unfold civil_from_days, days_from_civil.
  set (z := days + 719468).
  set (era := z / 146097).
  set (doe := z - era * 146097).
  assert (0 <= doe <= 146096) as Hdoe by (unfold doe, era; Z.div_mod_to_equations; lia).
  set (yoe := (doe - doe / 1460 + doe / 36524 - doe / 146096) / 365).
  assert (0 <= yoe <= 399) as Hyoe by (unfold yoe; Z.div_mod_to_equations; lia).
  set (doy := doe - (365 * yoe + yoe / 4 - yoe / 100)).
  assert (0 <= doy <= 365) as Hdoy
    by (unfold doy, yoe; Z.div_mod_to_equations; lia).
  set (mp := (5 * doy + 2) / 153).
  assert (0 <= mp <= 11) as Hmp by (unfold mp; Z.div_mod_to_equations; lia).
  set (d := doy - (153 * mp + 2) / 5 + 1).
  assert (1 <= d <= 31) as Hd by (unfold d, mp; Z.div_mod_to_equations; lia).
  destruct (mp <? 10) eqn:Hlt.
  - apply Z.ltb_lt in Hlt.
    replace (mp + 3 <=? 2) with false by (symmetry; apply Z.leb_gt; lia).
    replace (mp + 3 - 3) with mp by lia.
    replace ((yoe + era * 400 + 0) / 400) with era by (Z.div_mod_to_equations; lia).
    replace (yoe + era * 400 + 0 - era * 400) with yoe by lia.
    split; [unfold d, doy, doe, z; lia | lia].
  - apply Z.ltb_ge in Hlt.
    replace (mp - 9 <=? 2) with true by (symmetry; apply Z.leb_le; lia).
    replace (mp - 9 + 9) with mp by lia.
    replace (yoe + era * 400 + 1 - 1) with (yoe + era * 400) by lia.
    replace ((yoe + era * 400) / 400) with era by (Z.div_mod_to_equations; lia).
    replace (yoe + era * 400 - era * 400) with yoe by lia.
    split; [unfold d, doy, doe, z; lia | lia].
Qed.

Lemma expect_String c s : expect c (String c s) = Some s.
Proof. unfold expect. by rewrite Ascii.eqb_refl. Qed.

Lemma read_year_YearString y rest :
  -999999 <= y <= 999999 ->
  read_year (YearString y +:+ rest) = Some (y, rest).
Proof.
  intros Hy. unfold YearString.
  destruct ((0 <=? y) && (y <=? 9999)) eqn:Hr.
  - apply andb_true_iff in Hr as [H0 H1].
    apply Z.leb_le in H0, H1.
    pose proof (read_digits_pad 4 y rest ltac:(simpl; lia)) as Hread.
    unfold pad in *. rewrite pad_onto_append in *.
    change (pad_onto 4 y ("" +:+ rest))
      with (String (digit (y / 10 / 10 / 10))
              (pad_onto 0 (y / 10 / 10 / 10 / 10)
                 (String (digit (y / 10 / 10))
                    (String (digit (y / 10)) (String (digit y) rest))))) in *.
    unfold read_year.
    rewrite (digit_not_char _ "+"), (digit_not_char _ "-")
      by (vm_compute; lia).
    exact Hread.
  - destruct (y <? 0) eqn:Hneg.
    + apply Z.ltb_lt in Hneg.
      change (("-" +:+ pad 6 (Z.abs y)) +:+ rest)
        with (String "-" (pad 6 (Z.abs y) +:+ rest)).
      unfold read_year.
      change (Ascii.eqb "-" "+") with false. change (Ascii.eqb "-" "-") with true.
      cbv iota. rewrite read_digits_pad by (simpl; lia).
      do 2 f_equal. lia.
    + apply Z.ltb_ge in Hneg.
      change (("+" +:+ pad 6 (Z.abs y)) +:+ rest)
        with (String "+" (pad 6 (Z.abs y) +:+ rest)).
      unfold read_year. change (Ascii.eqb "+" "+") with true. cbv iota.
      rewrite read_digits_pad by (simpl; lia).
      do 2 f_equal. lia.
Qed.

Lemma expect_append c s : expect c (String c "" +:+ s) = Some s.
Proof. apply expect_String. Qed.

Lemma read_iso_toISOString t :
  ValidTime t -> read_iso (Date_toISOString t) = Some t.
Proof.
  intros Ht. unfold ValidTime in Ht. unfold Date_toISOString.
  pose proof (days_from_civil_from_days (Day t)) as Hciv.
  destruct (civil_from_days (Day t)) as [[y m] d].
  destruct Hciv as (Hdays & Hm & Hd & Hy).
  assert (-999999 <= y <= 999999) as Hyr.
  { unfold Day, msPerDay in Hy. Z.div_mod_to_equations. lia. }
  assert (0 <= HourFromTime t < 24) as Hhh by (apply Z.mod_pos_bound; lia).
  assert (0 <= MinFromTime t < 60) as Hmm by (apply Z.mod_pos_bound; lia).
  assert (0 <= SecFromTime t < 60) as Hss by (apply Z.mod_pos_bound; lia).
  assert (0 <= msFromTime t < 1000) as Hms by (apply Z.mod_pos_bound; lia).
  unfold read_iso.
  rewrite read_year_YearString by exact Hyr. cbn [mbind option_bind].
  rewrite expect_append. cbn [mbind option_bind].
  rewrite read_digits_pad by (simpl; lia). cbn [mbind option_bind].
  rewrite expect_append. cbn [mbind option_bind].
  rewrite read_digits_pad by (simpl; lia). cbn [mbind option_bind].
  rewrite expect_append. cbn [mbind option_bind].
  rewrite read_digits_pad by (simpl; lia). cbn [mbind option_bind].
  rewrite expect_append. cbn [mbind option_bind].
  rewrite read_digits_pad by (simpl; lia). cbn [mbind option_bind].
  rewrite expect_append. cbn [mbind option_bind].
  rewrite read_digits_pad by (simpl; lia). cbn [mbind option_bind].
  rewrite expect_append. cbn [mbind option_bind].
  rewrite read_digits_pad by (simpl; lia). cbn [mbind option_bind].
  rewrite expect_String. cbn [mbind option_bind].
  change (String.eqb "" "") with true. cbv iota.
  f_equal. rewrite Hdays.
  unfold Day, msPerDay, HourFromTime, MinFromTime, SecFromTime, msFromTime.
  Z.div_mod_to_equations. lia.
Qed.

Section Create.
Context `{Engine} `{Axios.Network}.

Lemma create_object (o : gmap string JSValue) (w : World) formatted :
  Forall (present o)
    ["questionTitle"; "description"; "outcomeType"; "resolutionDateTime"] ->
  BaseResource.formatDate (default VUndefined (o !! "resolutionDateTime"))
  = Ok formatted ->
  MarketsResource.create (VObj o) w
  = perform
      (POST "/v0/create" (VObj (<[ "resolutionDateTime" := formatted ]> o))) w.
Proof.
  intros Hreq Hfmt. apply validateRequired_passes in Hreq.
  unfold MarketsResource.create, bind, lift. rewrite Hreq.
  rewrite GetProp_field by reflexivity. simpl.
  rewrite Hfmt. reflexivity.
Qed.
End Create.

(** C6.  [formatDate] returns the ISO-8601 UTC string of a date -- the
    timestamp that reads back as the instant of the date -- and returns a
    string unchanged; so [create(marketData)], given the other required
    fields and a date under [resolutionDateTime], posts to [/v0/create] a
    body in which that field is the ISO-8601 UTC string of the same
    instant and every other field is the one of [marketData]. *)
Theorem create_sends_iso_date (E : Engine) (N : Axios.Network) :
  (forall t,
      BaseResource.formatDate (VDate (Some t)) = Ok (VStr (Date_toISOString t))
      /\ (ValidTime t -> read_iso (Date_toISOString t) = Some t))
  /\ (forall s, BaseResource.formatDate (VStr s) = Ok (VStr s))
  /\ (forall (o : gmap string JSValue) (t : Z) (w : World),
        present o "questionTitle" ->
        present o "description" ->
        present o "outcomeType" ->
        o !! "resolutionDateTime" = Some (VDate (Some t)) ->
        exists sentData config,
          MarketsResource.create (VObj o) w
          = perform (POST "/v0/create" (VObj sentData)) w
          /\ sent (snd (MarketsResource.create (VObj o) w))
             = (sent w ++ [config])%list
          /\ Axios.method config = "post"
          /\ Axios.url config = "/v0/create"
          /\ Axios.body config = VObj sentData
          /\ sentData !! "resolutionDateTime"
             = Some (VStr (Date_toISOString t))
          /\ forall k, k <> "resolutionDateTime" -> sentData !! k = o !! k).
Proof.
  split; [intros t; split; [reflexivity | apply read_iso_toISOString]|].
  split; [reflexivity|].
  intros o t w Hq Hd Ho Hr.
  exists (<[ "resolutionDateTime" := VStr (Date_toISOString t) ]> o).
  assert (MarketsResource.create (VObj o) w
          = perform (POST "/v0/create"
              (VObj (<[ "resolutionDateTime" := VStr (Date_toISOString t) ]> o))) w)
    as Hcreate.
  { apply create_object.
    - repeat constructor; auto.
      exists (VDate (Some t)). repeat split; auto; discriminate.
    - rewrite Hr. reflexivity. }
  eexists. split; [exact Hcreate|].
  split; [rewrite Hcreate; apply perform_sent|].
  unfold HttpClient.onRequest.
  destruct (truthy (HttpClient.token (http w)) && _); simpl;
    (repeat split; [apply lookup_insert_eq |
                    intros k Hk; by apply lookup_insert_ne]).
Qed.

Lemma create_sends_iso_date_witness :
  let marketData : gmap string JSValue :=
    <[ "questionTitle" := VStr "Will it snow next week?" ]>
    (<[ "description" := VStr "Weather prediction" ]>
    (<[ "outcomeType" := VStr "binary" ]>
    (<[ "resolutionDateTime" := VDate (Some 1760529600000) ]>
    (<[ "initialProbability" := VNum (Num 1) ]> ∅)))) in
  exists sentData config,
    sent (snd (@MarketsResource.create sampleEngine (answering 201 VNull)
                 (VObj marketData) fresh)) = [config]
    /\ Axios.body config = VObj sentData
    /\ sentData !! "resolutionDateTime" = Some (VStr "2025-10-15T12:00:00.000Z")
    /\ sentData !! "initialProbability" = Some (VNum (Num 1)).
Proof.
  intros marketData.
  destruct (proj2 (proj2 (create_sends_iso_date sampleEngine
                               (answering 201 VNull)))
              marketData 1760529600000 fresh)
    as (sentData & config & _ & Hsent & _ & _ & Hbody & Hdate & Hrest).
  - eexists. split; [vm_compute; reflexivity|]. split; discriminate.
  - eexists. split; [vm_compute; reflexivity|]. split; discriminate.
  - eexists. split; [vm_compute; reflexivity|]. split; discriminate.
  - vm_compute. reflexivity.
  - exists sentData, config. split; [exact Hsent|]. split; [exact Hbody|].
    split; [exact Hdate|].
    rewrite Hrest by discriminate. vm_compute. reflexivity.
Defined.

(* ===================================================================== *)
(** * Regular expressions: the matcher decides the language *)
(* ===================================================================== *)

Lemma nullable_lang (r : regex) : nullable r = true <-> lang r "".
Proof.
  split.
  - induction r; simpl; intros Hn; try discriminate.
    + constructor.
    + apply andb_true_iff in Hn as [H1 H2].
      change "" with ("" +:+ ""). constructor; auto.
    + apply orb_true_iff in Hn as [H1|H2];
        [apply lang_Alt_l | apply lang_Alt_r]; auto.
    + constructor.
  - intros Hl. remember "" as s eqn:Hs.
    induction Hl; simpl; try discriminate; auto.
    + apply append_eq_nil in Hs as [-> ->]. rewrite IHHl1, IHHl2; auto.
    + rewrite IHHl; auto.
    + rewrite IHHl, orb_true_r; auto.
Qed.

Lemma deriv_sound (c : ascii) (r : regex) :
  forall s, lang (deriv c r) s -> lang r (String c s).
Proof.
  induction r as [| |p|r1 IH1 r2 IH2|r1 IH1 r2 IH2|r IH]; simpl; intros s Hl.
  - inversion Hl.
  - inversion Hl.
  - destruct (p c) eqn:Hp; inversion Hl; subst. by constructor.
  - destruct (nullable r1) eqn:Hn.
    + inversion Hl as [| |? ? s1 s2 Ha Hb| ? ? ? Ha | ? ? ? Hb | |]; subst.
      * inversion Ha as [| |? ? s1 s2 Ha1 Ha2| | | |]; subst.
        change (String c (s1 +:+ s2)) with (String c s1 +:+ s2).
        constructor; auto.
      * change (String c s) with ("" +:+ String c s).
        constructor; [by apply nullable_lang | auto].
    + inversion Hl as [| |? ? s1 s2 Ha Hb| | | |]; subst.
      change (String c (s1 +:+ s2)) with (String c s1 +:+ s2).
      constructor; auto.
  - inversion Hl; subst; [apply lang_Alt_l | apply lang_Alt_r]; auto.
  - inversion Hl as [| |? ? s1 s2 Ha Hb| | | |]; subst.
    change (String c (s1 +:+ s2)) with (String c s1 +:+ s2).
    constructor; auto.
Qed.

Lemma deriv_complete (c : ascii) (r : regex) (s0 : string) :
  lang r s0 -> forall s, s0 = String c s -> lang (deriv c r) s.
Proof.
  induction 1 as [|p c0 Hp|r1 r2 s1 s2 H1 IH1 H2 IH2|r1 r2 s1 H1 IH1
                  |r1 r2 s2 H2 IH2| |r s1 s2 H1 IH1 H2 IH2];
    intros s Heq; simpl.
  - discriminate.
  - injection Heq as -> <-. rewrite Hp. constructor.
  - apply append_eq_String in Heq as [[-> ->]|(s1' & -> & ->)].
    + apply nullable_lang in H1. rewrite H1. apply lang_Alt_r. auto.
    + destruct (nullable r1);
        [apply lang_Alt_l|]; constructor; auto.
  - apply lang_Alt_l. auto.
  - apply lang_Alt_r. auto.
  - discriminate.
  - apply append_eq_String in Heq as [[-> ->]|(s1' & -> & ->)].
    + apply (IH2 s eq_refl).
    + constructor; auto.
Qed.

Lemma matches_lang (s : string) :
  forall r, matches r s = true <-> lang r s.
Proof.
  induction s as [|c s IH]; intros r; simpl.
  - apply nullable_lang.
  - rewrite IH. split; [apply deriv_sound|].
    intros Hl. by apply (deriv_complete c r (String c s)).
Qed.

Lemma lang_Class_inv p s :
  lang (Class p) s <-> exists c, s = String c "" /\ p c = true.
Proof.
  split.
  - inversion 1; subst. eauto.
  - intros (c & -> & Hp). by constructor.
Qed.

Lemma lang_Star_Class p s :
  lang (Star (Class p)) s <-> all_chars p s = true.
Proof.
  split.
  - intros Hl. remember (Star (Class p)) as r eqn:Hr.
    induction Hl as [| | | | | |r s1 s2 H1 _ H2 IH2]; try discriminate.
    + reflexivity.
    + injection Hr as ->. apply lang_Class_inv in H1 as (c & -> & Hp).
      rewrite append_String. simpl. rewrite Hp. by apply IH2.
  - induction s as [|c s IH]; simpl; intros Ha; [constructor|].
    apply andb_true_iff in Ha as [Hp Hs].
    change (String c s) with (String c "" +:+ s).
    constructor; [by constructor | auto].
Qed.

Lemma lang_Plus_Class p s :
  lang (Plus (Class p)) s <-> s <> "" /\ all_chars p s = true.
Proof.
  unfold Plus. split.
  - inversion 1 as [| |? ? s1 s2 H1 H2| | | |]; subst.
    apply lang_Class_inv in H1 as (c & -> & Hp).
    apply lang_Star_Class in H2. rewrite append_String.
    split; [discriminate|]. simpl. by rewrite Hp.
  - intros [Hne Ha]. destruct s as [|c s]; [congruence|].
    simpl in Ha. apply andb_true_iff in Ha as [Hp Hs].
    change (String c s) with (String c "" +:+ s).
    constructor; [by constructor | by apply lang_Star_Class].
Qed.

Lemma lang_is_char c0 s : lang (Class (is_char c0)) s <-> s = String c0 "".
Proof.
  rewrite lang_Class_inv. unfold is_char. split.
  - intros (c & -> & Hc). apply Ascii.eqb_eq in Hc. by subst.
  - intros ->. exists c0. split; [reflexivity | apply Ascii.eqb_refl].
Qed.

(** The pattern of [createUser] accepts exactly the addresses of the form
    [local@domain.tld]. *)
Lemma emailRegex_spec (s : string) :
  matches AdminResource.emailRegex s = true <-> WellFormedEmail s.
Proof.
  rewrite matches_lang. unfold AdminResource.emailRegex, WellFormedEmail,
    email_part. split.
  - intros Hl.
    inversion Hl as [| |? ? a s1 Ha H1| | | |]; subst.
    inversion H1 as [| |? ? at_ s2 Hat H2| | | |]; subst.
    inversion H2 as [| |? ? b s3 Hb H3| | | |]; subst.
    inversion H3 as [| |? ? dot c Hdot Hc| | | |]; subst.
    apply lang_is_char in Hat, Hdot. subst.
    apply lang_Plus_Class in Ha, Hb, Hc.
    exists a, b, c. auto.
  - intros (a & b & c & -> & Ha & Hb & Hc).
    constructor; [by apply lang_Plus_Class|].
    constructor; [by apply (lang_is_char "@")|].
    constructor; [by apply lang_Plus_Class|].
    constructor; [by apply (lang_is_char ".") | by apply lang_Plus_Class].
Qed.

(* ===================================================================== *)
(** * Local validation *)
(* ===================================================================== *)

Lemma validateRequired_fails `{Engine} o required :
  plain_names required = true ->
  (exists n, n ∈ required /\ absent o n) ->
  BaseResource.validateRequired (VObj o) required
  = Throw (PlainError ("Missing required parameters: "
                         +:+ join ", " (missing_names o required))).
Proof.
  intros Hplain (n & Hin & Habs).
  rewrite validateRequired_object, unset_names_plain
    by (by apply plain_names_spec).
  destruct (missing_names o required) as [|m ms] eqn:Hm; [|reflexivity].
  assert (n ∈ missing_names o required) as Hn
    by (apply list_elem_of_filter; auto).
  rewrite Hm in Hn. by apply not_elem_of_nil in Hn.
Qed.

Lemma present_lookup o n :
  present o n ->
  exists v, o !! n = Some v /\ default VUndefined (o !! n) = v.
Proof. intros (v & Hv & _). exists v. by rewrite Hv. Qed.

Section LocalValidation.
Context `{Engine} `{Axios.Network}.

Lemma missing_required_throws c o required w :
  required_of c = Some (VObj o, required) ->
  (exists n, n ∈ required /\ absent o n) ->
  run c w
  = (Throw (PlainError ("Missing required parameters: "
                          +:+ join ", " (missing_names o required))), w).
Proof.
  intros Hreq Hmiss.
  assert (plain_names required = true) as Hplain.
  { destruct c; simpl in Hreq; try discriminate;
      try (match type of Hreq with
           | context [match ?a with _ => _ end] =>
               destruct a; try discriminate
           end);
      simplify_eq; reflexivity. }
  apply (validateRequired_fails _ _ Hplain) in Hmiss.
  destruct c; simpl in Hreq; try discriminate;
    try (match type of Hreq with
         | context [match ?a with _ => _ end] =>
             destruct a; try discriminate
         end);
    simplify_eq; simpl; run_method;
    rewrite ?GetProp_field by reflexivity; simpl;
    rewrite Hmiss; reflexivity.
Qed.

Lemma falsy_argument_throws c v msg w :
  guarded_of c = Some (v, msg) ->
  Falsy v ->
  run c w = (Throw (PlainError msg), w).
Proof.
  intros Hg Hf. apply truthy_false_iff in Hf.
  destruct c; simpl in Hg; try discriminate;
    simplify_eq; simpl; run_method; rewrite Hf; reflexivity.
Qed.

Lemma amount_rule_bet o z w :
  Forall (present o) ["marketId"; "amount"; "outcome"] ->
  o !! "amount" = Some (VNum (Num z)) ->
  z <= 0 ->
  BettingResource.placeBet (VObj o) w
  = (Throw (PlainError "Bet amount must be greater than 0"), w).
Proof.
  intros Hreq Ha Hz. apply validateRequired_passes in Hreq.
  run_method. rewrite Hreq. simpl. rewrite Ha. simpl.
  unfold le_num. simpl.
  destruct (z <=? 0) eqn:Hle; [reflexivity | lia].
Qed.

Lemma amount_rule_sell o z w :
  Forall (present o) ["marketId"; "amount"; "outcome"] ->
  o !! "amount" = Some (VNum (Num z)) ->
  z <= 0 ->
  BettingResource.sellPosition (VObj o) w
  = (Throw (PlainError "Sell amount must be greater than 0"), w).
Proof.
  intros Hreq Ha Hz. apply validateRequired_passes in Hreq.
  run_method. rewrite Hreq. simpl. rewrite Ha. simpl.
  unfold le_num. simpl.
  destruct (z <=? 0) eqn:Hle; [reflexivity | lia].
Qed.

Lemma username_rule o u w :
  o !! "username" = Some (VStr u) ->
  present o "password" ->
  (String.length u < 3 \/ 30 < String.length u)%nat ->
  AuthResource.login (VObj o) w
  = (Throw (PlainError "Username must be between 3 and 30 characters"), w).
Proof.
  intros Hu Hp Hlen.
  assert (BaseResource.validateRequired (VObj o) ["username"; "password"]
          = Ok tt) as Hreq.
  { apply validateRequired_passes. repeat constructor; auto.
    exists (VStr u). repeat split; auto; discriminate. }
  run_method. rewrite Hreq. simpl. rewrite Hu. simpl.
  unfold lt_num, gt_num. simpl.
  destruct (Z.of_nat (String.length u) <? 3) eqn:Hlt; [reflexivity|].
  destruct (Z.of_nat (String.length u) >? 30) eqn:Hgt; [reflexivity|].
  lia.
Qed.

Lemma email_rule o s w :
  Forall (present o)
    ["username"; "displayName"; "email"; "password"; "userType"] ->
  o !! "email" = Some (VStr s) ->
  ~ WellFormedEmail s ->
  AdminResource.createUser (VObj o) w
  = (Throw (PlainError "Invalid email format"), w).
Proof.
  intros Hreq He Hbad. apply validateRequired_passes in Hreq.
  run_method. rewrite Hreq. simpl. rewrite He. simpl.
  destruct (matches AdminResource.emailRegex s) eqn:Hm; [|reflexivity].
  apply emailRegex_spec in Hm. contradiction.
Qed.
End LocalValidation.

(** C3, as amended.  Every resource-method call that fails local
    validation -- a missing required field or argument, a non-positive bet
    or sell amount, a username shorter than 3 or longer than 30
    characters, an address not of the form [local@domain.tld] -- throws a
    plain [Error] carrying the message of the rule, which is not an
    ErrorType; it does so before any verb of the transport is invoked: no
    request is sent and the transport is unchanged. *)
Theorem local_validation_throws_plain_error
    (E : Engine) (N : Axios.Network) (c : ResourceCall) (msg : string)
    (w : World) :
  LocalValidationFailure c msg ->
  exists t,
    run c w = (Throw t, w)
    /\ t = PlainError msg
    /\ instanceof_SocialPredictError t = false
    /\ sent (snd (run c w)) = sent w.
Proof.
  intros Hf. exists (PlainError msg).
  assert (run c w = (Throw (PlainError msg), w)) as Hrun.
  { destruct Hf.
    - by apply missing_required_throws.
    - by eapply falsy_argument_throws.
    - by eapply amount_rule_bet.
    - by eapply amount_rule_sell.
    - by eapply username_rule.
    - by eapply email_rule. }
  rewrite Hrun. auto.
Qed.

Lemma local_validation_throws_plain_error_witness :
  let betData : gmap string JSValue :=
    <[ "marketId" := VNum (Num 1) ]>
    (<[ "amount" := VNum (Num (-5)) ]>
    (<[ "outcome" := VStr "yes" ]> ∅)) in
  @run sampleEngine offline (Betting_placeBet (VObj betData)) fresh
  = (Throw (PlainError "Bet amount must be greater than 0"), fresh).
Proof.
  intros betData.
  destruct (local_validation_throws_plain_error sampleEngine offline
              (Betting_placeBet (VObj betData))
              "Bet amount must be greater than 0" fresh)
    as (t & Hrun & -> & _).
  - apply (LVF_bet_amount betData (-5)).
    + repeat constructor;
        (eexists; split; [vm_compute; reflexivity|]; split; discriminate).
    + vm_compute. reflexivity.
    + lia.
  - exact Hrun.
Defined.

(** C3 as stated fails: [placeBet({marketId: 1, amount: 0, outcome:
    "yes"})] throws a plain [Error], which is not an ErrorType. *)
Lemma validation_error_not_ErrorType :
  let betData : gmap string JSValue :=
    <[ "marketId" := VNum (Num 1) ]>
    (<[ "amount" := VNum (Num 0) ]>
    (<[ "outcome" := VStr "yes" ]> ∅)) in
  exists t,
    fst (@run sampleEngine offline (Betting_placeBet (VObj betData)) fresh)
    = Throw t
    /\ instanceof_SocialPredictError t = false.
Proof.
  simpl. eexists. split; [vm_compute; reflexivity|]. reflexivity.
Qed.

(** ** Where an ErrorType can come from *)

Lemma GetProp_throws `{Engine} v k t :
  GetProp v k = Throw t -> instanceof_SocialPredictError t = false.
Proof.
  unfold GetProp.
  destruct v; try (intros Ht; injection Ht as <-; reflexivity);
    destruct (GetOwnProperty _ k); try discriminate;
    destruct (restricted _ k); try discriminate;
    intros Ht; injection Ht as <-; reflexivity.
Qed.

Lemma Array_filter_throws `{Engine} params required t :
  BaseResource.Array_filter (BaseResource.is_missing params) required = Throw t ->
  instanceof_SocialPredictError t = false.
Proof.
  induction required as [|n required IH]; simpl; [discriminate|].
  unfold BaseResource.is_missing at 1.
  destruct (GetProp params n) as [v|t'] eqn:Hg; simpl.
  - destruct (BaseResource.Array_filter _ required) as [l|t'] eqn:Hf; simpl;
      [discriminate|].
    intros Ht. injection Ht as <-. by apply IH.
  - intros Ht. injection Ht as <-. by eapply GetProp_throws.
Qed.

Lemma validateRequired_throws `{Engine} params required t :
  BaseResource.validateRequired params required = Throw t ->
  instanceof_SocialPredictError t = false.
Proof.
  unfold BaseResource.validateRequired.
  destruct (BaseResource.Array_filter _ required) as [l|t'] eqn:Hf; simpl.
  - destruct (0 <? length l)%nat; [|discriminate].
    intros Ht. injection Ht as <-. reflexivity.
  - intros Ht. injection Ht as <-. by eapply Array_filter_throws.
Qed.

Lemma formatDate_throws date t :
  BaseResource.formatDate date = Throw t ->
  instanceof_SocialPredictError t = false.
Proof.
  destruct date as [| | | | |[]| |]; simpl; try discriminate.
  intros Ht. injection Ht as <-. reflexivity.
Qed.

Section Provenance.
Context `{Engine} `{Axios.Network}.

Lemma los_throw_plain {A} msg : local_or_sends (@throw A (PlainError msg)).
Proof. intros w. left. eexists. split; reflexivity. Qed.

Lemma los_perform v : local_or_sends (perform v).
Proof.
  intros w. right. rewrite (proj1 (perform_sent v w)), length_app. simpl. lia.
Qed.

Lemma los_bind_lift {A B} (r : Result A) (k : A -> M B) :
  (forall t, r = Throw t -> instanceof_SocialPredictError t = false) ->
  (forall a, r = Ok a -> local_or_sends (k a)) ->
  local_or_sends (bind (lift r) k).
Proof.
  intros Ht Hk w. unfold bind, lift. destruct r as [a|t].
  - by apply Hk.
  - left. eauto.
Qed.

Lemma los_if {A} (b : bool) (m1 m2 : M A) :
  local_or_sends m1 -> local_or_sends m2 ->
  local_or_sends (if b then m1 else m2).
Proof. by destruct b. Qed.

(** What follows the request in [login] sends nothing more. *)
Lemma los_login_tail path data :
  local_or_sends
    (let* response := perform (POST path data) in
     let* token := lift (GetProp response "token") in
     (if truthy token then Transport.setToken token else ret tt) ;;
     ret response)%js.
Proof.
  intros w. right. unfold bind.
  pose proof (perform_sent (POST path data) w) as [Hs _].
  destruct (perform (POST path data) w) as [[response|t] w1]; simpl in *.
  - unfold lift. destruct (GetProp response "token") as [token|t]; simpl.
    + destruct (truthy token); simpl; rewrite Hs, length_app; simpl; lia.
    + rewrite Hs, length_app. simpl. lia.
  - rewrite Hs, length_app. simpl. lia.
Qed.

Lemma run_local_or_sends (c : ResourceCall) : local_or_sends (run c).
Proof.
  destruct c; simpl; run_method;
    repeat first
      [ apply los_perform
      | apply (los_perform (GET _ _))
      | apply (los_perform (POST _ _))
      | apply los_throw_plain
      | apply los_login_tail
      | apply los_if
      | apply los_bind_lift;
        [ first [ apply validateRequired_throws | apply GetProp_throws
                | apply formatDate_throws ]
        | intros ? _ ] ].
Qed.
End Provenance.

(** A resource method throws an ErrorType only after it has sent a
    request; whatever it throws without sending one is a plain or engine
    error, and then the world is unchanged. *)
Lemma ErrorType_only_from_transport
    (E : Engine) (N : Axios.Network) (c : ResourceCall) (w : World) (t : Thrown) :
  fst (run c w) = Throw t ->
  (instanceof_SocialPredictError t = true ->
   length (sent (snd (run c w))) = S (length (sent w)))
  /\ (sent (snd (run c w)) = sent w ->
      instanceof_SocialPredictError t = false /\ snd (run c w) = w).
Proof.
  intros Ht. destruct (run_local_or_sends c w) as [(t' & Hrun & Hns)|Hlen].
  - rewrite Hrun in *. simpl in Ht. injection Ht as ->. split.
    + congruence.
    + auto.
  - split; [auto|]. intros Hs. rewrite Hs in Hlen. lia.
Qed.

(* ===================================================================== *)
(** * Query strings: [buildQuery] *)
(* ===================================================================== *)

Lemma forall_ascii (P : ascii -> bool) :
  forallb (fun n => P (ascii_of_nat n)) (seq 0 256) = true ->
  forall c, P c = true.
Proof.
  intros Hall c. rewrite forallb_forall in Hall.
  rewrite <- (ascii_nat_embedding c). apply Hall.
  apply in_seq. pose proof (nat_ascii_bounded c). lia.
Qed.

Lemma all_chars_append p (a b : string) :
  all_chars p (a +:+ b) = all_chars p a && all_chars p b.
Proof.
  induction a as [|c a IH]; [reflexivity|].
  rewrite append_String. simpl. rewrite IH. by rewrite andb_assoc.
Qed.

Lemma urldecode_cons c r :
  urldecode (String c r) =
  if Ascii.eqb c "+" then String " " <$> urldecode r
  else if Ascii.eqb c "%"
  then match r with
       | String h1 (String h2 r2) =>
           match hex_value h1, hex_value h2 with
           | Some a, Some b =>
               let byte := (16 * a + b)%nat in
               if (byte <? 128)%nat
               then String (ascii_of_nat byte) <$> urldecode r2
               else
                 match r2 with
                 | String p (String h3 (String h4 r3)) =>
                     match hex_value h3, hex_value h4 with
                     | Some a', Some b' =>
                         let byte' := (16 * a' + b')%nat in
                         if Ascii.eqb p "%"
                            && (194 <=? byte)%nat && (byte <=? 195)%nat
                            && (128 <=? byte')%nat && (byte' <=? 191)%nat
                         then String
                                (ascii_of_nat ((byte - 192) * 64 + (byte' - 128)))
                                <$> urldecode r3
                         else None
                     | _, _ => None
                     end
                 | _ => None
                 end
           | _, _ => None
           end
       | _ => None
       end
  else String c <$> urldecode r.
Proof. reflexivity. Qed.

Lemma fmap_String_Some c (o : option string) s :
  String c <$> o = Some s -> exists s', o = Some s' /\ s = String c s'.
Proof. destruct o; simpl; intros Heq; simplify_eq. eauto. Qed.

Lemma urldecode_append_aux (n : nat) :
  forall e1, (String.length e1 <= n)%nat ->
  forall s1 e2,
    urldecode e1 = Some s1 ->
    urldecode (e1 +:+ e2) = (fun s2 => s1 +:+ s2) <$> urldecode e2.
Proof.
  induction n as [|n IH]; intros e1 Hlen s1 e2 Hdec.
  - destruct e1; [|simpl in Hlen; lia]. simpl in Hdec. simplify_eq.
    change ("" +:+ e2) with e2. by destruct (urldecode e2).
  - destruct e1 as [|c r].
    { simpl in Hdec. simplify_eq. change ("" +:+ e2) with e2.
      by destruct (urldecode e2). }
    simpl in Hlen. rewrite append_String. rewrite urldecode_cons in *.
    destruct (Ascii.eqb c "+").
    { apply fmap_String_Some in Hdec as (s' & Hr & ->).
      rewrite (IH r ltac:(lia) s' e2 Hr). by destruct (urldecode e2). }
    destruct (Ascii.eqb c "%").
    2:{ apply fmap_String_Some in Hdec as (s' & Hr & ->).
        rewrite (IH r ltac:(lia) s' e2 Hr). by destruct (urldecode e2). }
    destruct r as [|h1 [|h2 r2]]; try discriminate.
    rewrite !append_String. simpl in Hlen.
    destruct (hex_value h1) as [a|]; [|discriminate].
    destruct (hex_value h2) as [b|]; [|discriminate].
    cbv zeta in *.
    destruct (16 * a + b <? 128)%nat.
    { apply fmap_String_Some in Hdec as (s' & Hr & ->).
      rewrite (IH r2 ltac:(lia) s' e2 Hr). by destruct (urldecode e2). }
    destruct r2 as [|p [|h3 [|h4 r3]]]; try discriminate.
    rewrite !append_String. simpl in Hlen.
    destruct (hex_value h3) as [a'|]; [|discriminate].
    destruct (hex_value h4) as [b'|]; [|discriminate].
    match type of Hdec with (if ?b then _ else _) = _ => destruct b end;
      [|discriminate].
    apply fmap_String_Some in Hdec as (s' & Hr & ->).
    rewrite (IH r3 ltac:(lia) s' e2 Hr). by destruct (urldecode e2).
Qed.

Lemma urldecode_append e1 e2 s1 :
  urldecode e1 = Some s1 ->
  urldecode (e1 +:+ e2) = (fun s2 => s1 +:+ s2) <$> urldecode e2.
Proof. by apply (urldecode_append_aux (String.length e1)). Qed.

Lemma urldecode_encode_char (c : ascii) :
  urldecode (URLSearchParams.encode_char c) = Some (String c "").
Proof.
  assert (forall c,
    match urldecode (URLSearchParams.encode_char c) with
    | Some s => String.eqb s (String c "")
    | None => false
    end = true) as Hall.
  { apply forall_ascii. vm_compute. reflexivity. }
  specialize (Hall c).
  destruct (urldecode (URLSearchParams.encode_char c)); [|discriminate].
  apply String.eqb_eq in Hall. by subst.
Qed.

Lemma urldecode_urlencode (s : string) :
  urldecode (URLSearchParams.urlencode s) = Some s.
Proof.
  induction s as [|c s IH]; [reflexivity|].
  change (URLSearchParams.urlencode (String c s))
    with (URLSearchParams.encode_char c +:+ URLSearchParams.urlencode s).
  rewrite (urldecode_append _ _ _ (urldecode_encode_char c)), IH. reflexivity.
Qed.

Lemma encode_char_clean (c : ascii) :
  all_chars not_separator (URLSearchParams.encode_char c) = true.
Proof. revert c. apply forall_ascii. vm_compute. reflexivity. Qed.

Lemma urlencode_clean (s : string) :
  all_chars not_separator (URLSearchParams.urlencode s) = true.
Proof.
  induction s as [|c s IH]; [reflexivity|].
  change (URLSearchParams.urlencode (String c s))
    with (URLSearchParams.encode_char c +:+ URLSearchParams.urlencode s).
  by rewrite all_chars_append, encode_char_clean, IH.
Qed.

Lemma split_on_clean (a : string) :
  all_chars not_separator a = true -> split_on "&" a = [a].
Proof.
  induction a as [|c a IH]; [reflexivity|]. simpl. intros Hc.
  apply andb_true_iff in Hc as [Hc Ha]. rewrite (IH Ha).
  unfold not_separator in Hc. apply negb_true_iff, orb_false_iff in Hc as [Hc _].
  by rewrite Hc.
Qed.

Lemma all_chars_no_amp (a : string) :
  all_chars (fun c => negb (Ascii.eqb c "&")) a = true ->
  forall b, split_on "&" (a +:+ String "&" b) = a :: split_on "&" b.
Proof.
  induction a as [|c a IH]; intros Ha b; [reflexivity|].
  rewrite append_String. simpl in *.
  apply andb_true_iff in Ha as [Hc Ha]. apply negb_true_iff in Hc.
  rewrite Hc, (IH Ha). reflexivity.
Qed.

Lemma all_chars_no_amp_single (a : string) :
  all_chars (fun c => negb (Ascii.eqb c "&")) a = true ->
  split_on "&" a = [a].
Proof.
  induction a as [|c a IH]; [reflexivity|]. simpl. intros Ha.
  apply andb_true_iff in Ha as [Hc Ha]. apply negb_true_iff in Hc.
  by rewrite Hc, (IH Ha).
Qed.

Lemma split_first_clean (a b : string) :
  all_chars not_separator a = true ->
  split_first "=" (a +:+ String "=" b) = (a, b).
Proof.
  induction a as [|c a IH]; intros Ha; [reflexivity|].
  rewrite append_String. simpl in *.
  apply andb_true_iff in Ha as [Hc Ha].
  unfold not_separator in Hc. apply negb_true_iff, orb_false_iff in Hc as [_ Hc].
  by rewrite Hc, (IH Ha).
Qed.

Lemma pair_text_no_amp p :
  all_chars (fun c => negb (Ascii.eqb c "&")) (pair_text p) = true.
Proof.
  assert (forall s, all_chars not_separator s = true ->
            all_chars (fun c => negb (Ascii.eqb c "&")) s = true) as Hweak.
  { induction s as [|c s IH]; [reflexivity|]. simpl. intros Hs.
    apply andb_true_iff in Hs as [Hc Hs]. rewrite (IH Hs), andb_true_r.
    unfold not_separator in Hc.
    apply negb_true_iff, orb_false_iff in Hc as [Hc _]. by rewrite Hc. }
  unfold pair_text. rewrite !all_chars_append.
  rewrite (Hweak (URLSearchParams.urlencode p.1)),
    (Hweak (URLSearchParams.urlencode p.2)) by apply urlencode_clean.
  reflexivity.
Qed.

Lemma pair_text_nonempty p : pair_text p <> "".
Proof.
  unfold pair_text. intros Heq. apply append_eq_nil in Heq as [_ Heq].
  discriminate.
Qed.

Lemma parse_pair_text p : parse_pair (pair_text p) = Some p.
Proof.
  unfold parse_pair, pair_text.
  change ("=" +:+ URLSearchParams.urlencode p.2)
    with (String "=" (URLSearchParams.urlencode p.2)).
  rewrite split_first_clean by apply urlencode_clean.
  rewrite !urldecode_urlencode. by destruct p.
Qed.

Lemma split_on_join (l : list (string * string)) :
  l <> [] ->
  split_on "&" (join "&" (map pair_text l)) = map pair_text l.
Proof.
  induction l as [|p l IH]; [congruence|]. intros _.
  destruct l as [|q l].
  - simpl. apply all_chars_no_amp_single, pair_text_no_amp.
  - change (join "&" (map pair_text (p :: q :: l)))
      with (pair_text p +:+ String "&" (join "&" (map pair_text (q :: l)))).
    rewrite all_chars_no_amp by apply pair_text_no_amp.
    rewrite IH by congruence. reflexivity.
Qed.

Lemma parse_query_toString (l : list (string * string)) :
  parse_query (URLSearchParams.toString l) = Some l.
Proof.
  unfold parse_query, URLSearchParams.toString.
  change (fun p : string * string =>
            URLSearchParams.urlencode p.1 +:+ "=" +:+ URLSearchParams.urlencode p.2)
    with pair_text.
  destruct l as [|p l]; [reflexivity|].
  rewrite split_on_join by congruence.
  generalize (p :: l). clear p l. intros l.
  induction l as [|p l IH]; [reflexivity|].
  change (map pair_text (p :: l)) with (pair_text p :: map pair_text l).
  rewrite filter_cons_True by apply pair_text_nonempty.
  cbn [mapM]. rewrite parse_pair_text. cbn [mbind option_bind].
  rewrite IH. reflexivity.
Qed.

Section BuildQueryFacts.
Context `{Engine}.

Lemma buildQuery_fold (entries : list (string * JSValue)) :
  forall acc,
    fold_left buildQuery_append entries acc = (acc ++ kept_entries entries)%list.
Proof.
  unfold kept_entries.
  induction entries as [|e entries IH]; intros acc; simpl.
  - by rewrite app_nil_r.
  - rewrite IH. unfold buildQuery_append.
    destruct (negb (nullish e.2)); simpl; [by rewrite <- app_assoc | reflexivity].
Qed.

Lemma buildQuery_kept (entries : list (string * JSValue)) :
  buildQuery entries = URLSearchParams.toString (kept_entries entries).
Proof. unfold buildQuery. by rewrite buildQuery_fold. Qed.
End BuildQueryFacts.

(** [buildQuery] keeps exactly the entries whose value is neither
    [undefined] nor [null], in their order, each with the string form of
    its value: that list is what the query string it returns denotes. *)
Theorem buildQuery_round_trip (E : Engine) (entries : list (string * JSValue)) :
  parse_query (buildQuery entries) = Some (kept_entries entries).
Proof. rewrite buildQuery_kept. apply parse_query_toString. Qed.

Lemma encode_char_query_chars (c : ascii) :
  all_chars query_char (URLSearchParams.encode_char c) = true.
Proof. revert c. apply forall_ascii. vm_compute. reflexivity. Qed.

Lemma urlencode_query_chars (s : string) :
  all_chars query_char (URLSearchParams.urlencode s) = true.
Proof.
  induction s as [|c s IH]; [reflexivity|].
  change (URLSearchParams.urlencode (String c s))
    with (URLSearchParams.encode_char c +:+ URLSearchParams.urlencode s).
  by rewrite all_chars_append, encode_char_query_chars, IH.
Qed.

Lemma toString_query_chars (l : list (string * string)) :
  all_chars query_char (URLSearchParams.toString l) = true.
Proof.
  unfold URLSearchParams.toString.
  change (fun p : string * string =>
            URLSearchParams.urlencode p.1 +:+ "=" +:+ URLSearchParams.urlencode p.2)
    with pair_text.
  assert (forall p, all_chars query_char (pair_text p) = true) as Hpair.
  { intros p. unfold pair_text.
    by rewrite !all_chars_append, !urlencode_query_chars. }
  induction l as [|p l IH]; [reflexivity|].
  destruct l as [|q l]; [apply Hpair|].
  change (join "&" (map pair_text (p :: q :: l)))
    with (pair_text p +:+ String "&" (join "&" (map pair_text (q :: l)))).
  rewrite all_chars_append, Hpair. simpl all_chars at 1. exact IH.
Qed.

Lemma toString_nil_iff (l : list (string * string)) :
  URLSearchParams.toString l = "" <-> l = [].
Proof.
  split; [|by intros ->].
  destruct l as [|p l]; [done|]. intros Heq. exfalso.
  unfold URLSearchParams.toString in Heq.
  change (fun p : string * string =>
            URLSearchParams.urlencode p.1 +:+ "=" +:+ URLSearchParams.urlencode p.2)
    with pair_text in Heq.
  destruct l as [|q l].
  - by apply (pair_text_nonempty p).
  - change (join "&" (map pair_text (p :: q :: l)))
      with (pair_text p +:+ String "&" (join "&" (map pair_text (q :: l)))) in Heq.
    apply append_eq_nil in Heq as [_ Heq]. discriminate.
Qed.

(** The string [buildQuery] returns is made of unreserved characters,
    [+], [%XX] escapes and the separators [&] and [=] only, and it is
    empty exactly when every entry holds [undefined] or [null]. *)
Theorem buildQuery_url_safe (E : Engine) (entries : list (string * JSValue)) :
  all_chars query_char (buildQuery entries) = true
  /\ (buildQuery entries = ""
      <-> forall e, e ∈ entries -> nullish (snd e) = true).
Proof.
  rewrite buildQuery_kept. split; [apply toString_query_chars|].
  rewrite toString_nil_iff. unfold kept_entries.
  induction entries as [|e entries IH]; simpl.
  - split; [intros _ e He; by apply not_elem_of_nil in He | done].
  - destruct (nullish e.2) eqn:Hn; simpl.
    + rewrite IH. split.
      * intros Hall e' He'. apply elem_of_cons in He' as [->|He']; auto.
      * intros Hall e' He'. apply Hall. by right.
    + split; [discriminate|]. intros Hall.
      specialize (Hall e ltac:(by left)). congruence.
Qed.


Example buildQuery_example :
  @buildQuery sampleEngine
    [("q", VStr "rain & snow"); ("page", VNum (Num 2)); ("tag", VNull);
     ("open", VBool true); ("from", VUndefined)]
  = "q=rain+%26+snow&page=2&open=true".
Proof. vm_compute. reflexivity. Qed.


(* ===================================================================== *)
(** * Further properties of the error class *)
(* ===================================================================== *)

(** [toJSON] has exactly the five properties [name], [message],
    [statusCode], [code] and [data], each holding the field of the error,
    so an error is determined by its JSON form. *)
Theorem toJSON_faithful (e : Errors.SocialPredictError) :
  dom (Errors.toJSON e)
  = ({[ "name"; "message"; "statusCode"; "code"; "data" ]} : gset string)
  /\ Errors.toJSON e !! "name" = Some (VStr (Errors.name e))
  /\ Errors.toJSON e !! "message" = Some (VStr (Errors.message e))
  /\ Errors.toJSON e !! "statusCode" = Some (VNum (Num (Errors.statusCode e)))
  /\ Errors.toJSON e !! "code" = Some (Errors.code e)
  /\ Errors.toJSON e !! "data" = Some (Errors.data e)
  /\ forall e', Errors.toJSON e' = Errors.toJSON e -> e' = e.
Proof.
  assert (forall x : Errors.SocialPredictError,
    Errors.toJSON x !! "name" = Some (VStr (Errors.name x))
    /\ Errors.toJSON x !! "message" = Some (VStr (Errors.message x))
    /\ Errors.toJSON x !! "statusCode" = Some (VNum (Num (Errors.statusCode x)))
    /\ Errors.toJSON x !! "code" = Some (Errors.code x)
    /\ Errors.toJSON x !! "data" = Some (Errors.data x)) as Hfields.
  { intros x. unfold Errors.toJSON. repeat split; by simplify_map_eq. }
  split.
  { unfold Errors.toJSON. rewrite !dom_insert_L, dom_empty_L. set_solver. }
  destruct (Hfields e) as (Hn & Hm & Hs & Hc & Hd).
  repeat (split; [assumption|]).
  intros e' Heq. destruct (Hfields e') as (Hn' & Hm' & Hs' & Hc' & Hd').
  rewrite Heq in Hn', Hm', Hs', Hc', Hd'.
  destruct e, e'; simpl in *. simplify_eq. reflexivity.
Qed.

(** At most one of the predicates on the status code holds of an error;
    the network predicate goes by the code alone and may hold together
    with any of them. *)
Theorem status_predicates_exclusive (e : Errors.SocialPredictError) :
  (Errors.isAuthError e = true ->
   Errors.isValidationError e = false /\ Errors.isNotFoundError e = false
   /\ Errors.isServerError e = false)
  /\ (Errors.isValidationError e = true ->
      Errors.isAuthError e = false /\ Errors.isNotFoundError e = false
      /\ Errors.isServerError e = false)
  /\ (Errors.isNotFoundError e = true ->
      Errors.isAuthError e = false /\ Errors.isValidationError e = false
      /\ Errors.isServerError e = false)
  /\ (Errors.isServerError e = true ->
      Errors.isAuthError e = false /\ Errors.isValidationError e = false
      /\ Errors.isNotFoundError e = false)
  /\ (exists e',
        Errors.isNetworkError e' = true /\ Errors.isServerError e' = true).
Proof.
  unfold Errors.isAuthError, Errors.isValidationError, Errors.isNotFoundError,
    Errors.isServerError.
  rewrite !Z.geb_leb.
  split; [|split; [|split; [|split]]];
    [| | | |
     by exists {| Errors.name := "SocialPredictError"; Errors.message := "";
                  Errors.statusCode := 503;
                  Errors.code := VStr "NETWORK_ERROR";
                  Errors.data := VNull |}];
    intros Hp;
    rewrite ?orb_true_iff, ?Z.eqb_eq, ?Z.leb_le in Hp;
    rewrite ?orb_false_iff, ?Z.eqb_neq, ?Z.leb_gt; lia.
Qed.

(* ===================================================================== *)
(** * Further properties of the transport *)
(* ===================================================================== *)


(** The request interceptor changes nothing but the Authorization header;
    it never overwrites a non-empty Authorization header, it replaces an
    empty one like a missing one, and running it twice is the same as
    running it once. *)
Theorem onRequest_idempotent
    (E : Engine) (this : HttpClient.t) (config : Axios.RequestConfig) :
  let config' := HttpClient.onRequest this config in
  Axios.method config' = Axios.method config
  /\ Axios.url config' = Axios.url config
  /\ Axios.params config' = Axios.params config
  /\ Axios.body config' = Axios.body config
  /\ (forall k, k <> "Authorization" ->
        Axios.headers config' !! k = Axios.headers config !! k)
  /\ (forall a, Axios.headers config !! "Authorization" = Some a -> a <> "" ->
        config' = config)
  /\ (truthy (HttpClient.token this) = true ->
      Axios.headers config !! "Authorization" = Some "" ->
      Axios.headers config' !! "Authorization"
      = Some ("Bearer " +:+ ToString (HttpClient.token this)))
  /\ HttpClient.onRequest this config' = config'.
Proof.
  unfold HttpClient.onRequest.
  destruct (truthy (HttpClient.token this)) eqn:Htok; simpl.
  2:{ repeat split; auto; discriminate. }
  destruct (HttpClient.no_Authorization (Axios.headers config)) eqn:Hno; simpl.
  - repeat (split; [reflexivity|]).
    split; [intros k Hk; by apply lookup_insert_ne|].
    split.
    { intros a Ha Hne. exfalso.
      unfold HttpClient.no_Authorization in Hno. rewrite Ha in Hno. simpl in Hno.
      apply negb_true_iff, negb_false_iff, String.eqb_eq in Hno. congruence. }
    split; [intros _ _; apply lookup_insert_eq|].
    unfold HttpClient.no_Authorization.
    rewrite lookup_insert_eq. reflexivity.
  - rewrite Hno. simpl.
    repeat split; auto.
    intros _ Ha. unfold HttpClient.no_Authorization in Hno.
    rewrite Ha in Hno. discriminate.
Qed.

(** Every verb call hands exactly one request to the network -- with the
    verb, the path, and the query or body given, [{}] standing for an
    omitted query or body -- after the requests sent before, and leaves
    the transport object (base address, token, defaults) as it is; when
    the network fulfils the request the call returns the body of the
    response alone. *)
Theorem verb_call_frame
    (E : Engine) (N : Axios.Network) (v : VerbCall) (w : World) :
  http (snd (perform v w)) = http w
  /\ exists config,
       sent (snd (perform v w)) = (sent w ++ [config])%list
       /\ Axios.method config = Axios.method (config_of (http w) v)
       /\ Axios.url config = Axios.url (config_of (http w) v)
       /\ Axios.params config = Axios.params (config_of (http w) v)
       /\ Axios.body config = Axios.body (config_of (http w) v)
       /\ (forall r,
             Axios.dispatch (sent w) config = Axios.Fulfilled r ->
             fst (perform v w) = Ok (Axios.data r))
       /\ (forall path,
             v = GET path VUndefined -> Axios.params config = VObj ∅)
       /\ (forall path,
             v = POST path VUndefined -> Axios.body config = VObj ∅).
Proof.
  destruct (perform_sent v w) as [Hsent Hhttp]. split; [exact Hhttp|].
  exists (HttpClient.onRequest (http w) (config_of (http w) v)).
  split; [exact Hsent|].
  assert (forall c : Axios.RequestConfig,
            Axios.method (HttpClient.onRequest (http w) c) = Axios.method c
            /\ Axios.url (HttpClient.onRequest (http w) c) = Axios.url c
            /\ Axios.params (HttpClient.onRequest (http w) c) = Axios.params c
            /\ Axios.body (HttpClient.onRequest (http w) c) = Axios.body c) as Hkeep.
  { intros c. unfold HttpClient.onRequest.
    destruct (truthy _ && _); simpl; auto. }
  destruct (Hkeep (config_of (http w) v)) as (Hm & Hu & Hp & Hb).
  repeat (split; [assumption|]). split; [|split].
  - intros r Hr. rewrite perform_unfold. simpl. rewrite Hr. reflexivity.
  - intros path ->. rewrite Hp. reflexivity.
  - intros path ->. rewrite Hb. reflexivity.
Qed.




Lemma ErrorType_only_from_transport_witness :
  let betData : gmap string JSValue :=
    <[ "marketId" := VNum (Num 1) ]>
    (<[ "amount" := VNum (Num 0) ]>
    (<[ "outcome" := VStr "yes" ]> ∅)) in
  snd (@run sampleEngine offline (Betting_placeBet (VObj betData)) fresh) = fresh
  /\ length (sent (snd (@run sampleEngine offline Config_getHome fresh))) = 1%nat.
Proof.
  intros betData. split.
  - apply (ErrorType_only_from_transport sampleEngine offline
             (Betting_placeBet (VObj betData)) fresh
             (PlainError "Bet amount must be greater than 0") eq_refl).
    reflexivity.
  - apply (ErrorType_only_from_transport sampleEngine offline Config_getHome fresh
             (SPError
                {| Errors.name := "SocialPredictError";
                   Errors.message := "Network error - unable to reach server";
                   Errors.statusCode := 0;
                   Errors.code := VStr "NETWORK_ERROR";
                   Errors.data := VNull |}) eq_refl).
    reflexivity.
Defined.


(* ===================================================================== *)
(** * [auth.login] and the token *)
(* ===================================================================== *)

Section Login.
Context `{Engine} `{Axios.Network}.

(** What [login] does once its checks have passed. *)
Lemma login_checked (o : gmap string JSValue) (u p : string) (w : World) :
  o !! "username" = Some (VStr u) ->
  (3 <= String.length u <= 30)%nat ->
  o !! "password" = Some (VStr p) ->
  p <> "" ->
  AuthResource.login (VObj o) w
  = (let* response := perform (POST "/v0/login" (VObj o)) in
     let* token := lift (GetProp response "token") in
     (if truthy token then Transport.setToken token else ret tt) ;;
     ret response)%js w.
Proof.
  intros Hu Hlen Hp Hne.
  assert (BaseResource.validateRequired (VObj o) ["username"; "password"]
          = Ok tt) as Hreq.
  { apply validateRequired_passes. repeat constructor;
      eexists; (split; [eassumption|]); split; discriminate. }
  unfold AuthResource.login, bind, lift. rewrite Hreq. simpl.
  rewrite Hu. simpl. unfold lt_num, gt_num. simpl.
  destruct (Z.ltb_spec (Z.of_nat (String.length u)) 3) as [Hlt|_]; [lia|].
  rewrite Z.gtb_ltb.
  destruct (Z.ltb_spec 30 (Z.of_nat (String.length u))) as [Hgt|_]; [lia|].
  simpl. rewrite Hp. simpl.
  destruct (Z.ltb_spec (Z.of_nat (String.length p)) 1) as [Hlp|_].
  { destruct p; [congruence | simpl String.length in Hlp; lia]. }
  reflexivity.
Qed.
End Login.



Section LoginFailure.
Context `{Engine} `{Axios.Network}.

Lemma login_tail_rejected (o : gmap string JSValue) (w : World) e :
  Axios.dispatch (sent w)
    (HttpClient.onRequest (http w) (config_of (http w) (POST "/v0/login" (VObj o))))
  = Axios.Rejected e ->
  (let* response := perform (POST "/v0/login" (VObj o)) in
   let* token := lift (GetProp response "token") in
   (if truthy token then Transport.setToken token else ret tt) ;;
   ret response)%js w
  = (Throw (HttpClient.onResponseError e),
     {| http := http w;
        sent := sent w ++ [HttpClient.onRequest (http w)
                             (config_of (http w) (POST "/v0/login" (VObj o)))] |}).
Proof.
  intros Hd. unfold bind at 1. rewrite perform_unfold. cbv zeta. rewrite Hd.
  reflexivity.
Qed.

Lemma login_tail_fulfilled (o : gmap string JSValue) (w : World) r :
  Axios.dispatch (sent w)
    (HttpClient.onRequest (http w) (config_of (http w) (POST "/v0/login" (VObj o))))
  = Axios.Fulfilled r ->
  (let* response := perform (POST "/v0/login" (VObj o)) in
   let* token := lift (GetProp response "token") in
   (if truthy token then Transport.setToken token else ret tt) ;;
   ret response)%js w
  = (let* token := lift (GetProp (Axios.data r) "token") in
     (if truthy token then Transport.setToken token else ret tt) ;;
     ret (Axios.data r))%js
      {| http := http w;
         sent := sent w ++ [HttpClient.onRequest (http w)
                              (config_of (http w) (POST "/v0/login" (VObj o)))] |}.
Proof.
  intros Hd. unfold bind at 1. rewrite perform_unfold. cbv zeta. rewrite Hd.
  reflexivity.
Qed.
End LoginFailure.

(** A login that obtains no token leaves the token as it was.  With
    credentials that pass the checks: when the request is rejected,
    [login] throws the classified error; when the answer has no truthy
    [token], [login] returns the answer; when the body of the answer is
    [null] or [undefined], reading its [token] raises a [TypeError] after
    the request was sent.  In each case the request has been sent and the
    transport object is unchanged. *)
Theorem login_without_token
    (E : Engine) (N : Axios.Network)
    (o : gmap string JSValue) (u p : string) (w : World) :
  o !! "username" = Some (VStr u) ->
  (3 <= String.length u <= 30)%nat ->
  o !! "password" = Some (VStr p) ->
  p <> "" ->
  let config :=
    HttpClient.onRequest (http w) (config_of (http w) (POST "/v0/login" (VObj o))) in
  let w' := {| http := http w; sent := sent w ++ [config] |} in
  (forall e,
      Axios.dispatch (sent w) config = Axios.Rejected e ->
      AuthResource.login (VObj o) w = (Throw (HttpClient.onResponseError e), w'))
  /\ (forall r tok,
        Axios.dispatch (sent w) config = Axios.Fulfilled r ->
        GetProp (Axios.data r) "token" = Ok tok ->
        truthy tok = false ->
        AuthResource.login (VObj o) w = (Ok (Axios.data r), w'))
  /\ (forall r,
        Axios.dispatch (sent w) config = Axios.Fulfilled r ->
        nullish (Axios.data r) = true ->
        exists msg,
          AuthResource.login (VObj o) w = (Throw (TypeError msg), w')).
Proof.
  intros Hu Hlen Hp Hne config w'.
  pose proof (login_checked o u p w Hu Hlen Hp Hne) as Hlogin.
  split; [|split].
  - intros e Hd. rewrite Hlogin. by apply login_tail_rejected.
  - intros r tok Hd Htok Hf. rewrite Hlogin, (login_tail_fulfilled o w r Hd).
    unfold bind, lift. rewrite Htok, Hf. reflexivity.
  - intros r Hd Hn. rewrite Hlogin, (login_tail_fulfilled o w r Hd).
    unfold bind, lift.
    destruct (Axios.data r); try discriminate; simpl; eauto.
Qed.

Lemma login_without_token_witness :
  let credentials : gmap string JSValue :=
    <[ "username" := VStr "testuser" ]> (<[ "password" := VStr "testpass" ]> ∅) in
  let w := snd (SocialPredictClient.setToken (VStr "old") fresh) in
  exists e w',
    @AuthResource.login sampleEngine offline (VObj credentials) w
    = (Throw (SPError e), w')
    /\ Errors.isNetworkError e = true
    /\ HttpClient.token (http w') = VStr "old".
Proof.
  intros credentials w.
  destruct (login_without_token sampleEngine offline credentials
              "testuser" "testpass" w)
    as (Hrej & _);
    [vm_compute; reflexivity | vm_compute; lia | vm_compute; reflexivity
    | discriminate |].
  set (err := {| Axios.response := None; Axios.request := true;
                 Axios.code := VStr "ECONNREFUSED";
                 Axios.message := VStr "connect ECONNREFUSED 127.0.0.1:8080" |}).
  eexists. eexists. split; [rewrite (Hrej err eq_refl); reflexivity|].
  split; reflexivity.
Defined.


(** The length rules of [login]: an empty password is present, so it
    passes the required-field check and fails the password rule, with
    nothing sent; and the rules compare the [length] property, which a
    number or a boolean lacks, so a username of such a type is not
    rejected and the credentials are posted. *)
Theorem login_length_rules (E : Engine) (N : Axios.Network) (w : World) :
  (forall (o : gmap string JSValue) u,
      o !! "username" = Some (VStr u) ->
      (3 <= String.length u <= 30)%nat ->
      o !! "password" = Some (VStr "") ->
      AuthResource.login (VObj o) w
      = (Throw (PlainError "Password must be at least 1 character"), w))
  /\ (forall (o : gmap string JSValue) x p,
        o !! "username" = Some x ->
        (exists n, x = VNum n) \/ (exists b, x = VBool b) ->
        o !! "password" = Some (VStr p) ->
        p <> "" ->
        sent (snd (AuthResource.login (VObj o) w))
        = (sent w ++ [HttpClient.onRequest (http w)
                        (config_of (http w) (POST "/v0/login" (VObj o)))])%list).
Proof.
  split.
  - intros o u Hu Hlen Hp.
    assert (BaseResource.validateRequired (VObj o) ["username"; "password"]
            = Ok tt) as Hreq.
    { apply validateRequired_passes.
      repeat constructor; eexists; (split; [eassumption|]); split; discriminate. }
    unfold AuthResource.login, bind, lift. rewrite Hreq. simpl.
    rewrite Hu. simpl. unfold lt_num, gt_num. simpl.
    destruct (Z.ltb_spec (Z.of_nat (String.length u)) 3) as [Hlt|_]; [lia|].
    rewrite Z.gtb_ltb.
    destruct (Z.ltb_spec 30 (Z.of_nat (String.length u))) as [Hgt|_]; [lia|].
    simpl. rewrite Hp. reflexivity.
  - intros o x p Hx Hkind Hp Hne.
    assert (BaseResource.validateRequired (VObj o) ["username"; "password"]
            = Ok tt) as Hreq.
    { apply validateRequired_passes.
      repeat constructor; eexists; (split; [eassumption|]);
        destruct Hkind as [[? ->]|[? ->]]; split; discriminate. }
    assert (AuthResource.login (VObj o) w
            = (let* response := perform (POST "/v0/login" (VObj o)) in
               let* token := lift (GetProp response "token") in
               (if truthy token then Transport.setToken token else ret tt) ;;
               ret response)%js w) as ->.
    { unfold AuthResource.login, bind, lift. rewrite Hreq. simpl.
      rewrite Hx. simpl.
      assert (GetProp x "length" = Ok VUndefined) as ->
        by (destruct Hkind as [[? ->]|[? ->]]; reflexivity).
      unfold lt_num, gt_num. simpl. rewrite Hp. simpl.
      destruct (Z.ltb_spec (Z.of_nat (String.length p)) 1) as [Hlp|_].
      { destruct p; [congruence | simpl String.length in Hlp; lia]. }
      reflexivity. }
    unfold bind at 1.
    pose proof (perform_sent (POST "/v0/login" (VObj o)) w) as [Hs _].
    destruct (perform (POST "/v0/login" (VObj o)) w) as [[response|t] w1];
      simpl in Hs |- *; [|exact Hs].
    unfold bind, lift.
    destruct (GetProp response "token") as [token|t]; simpl; [|exact Hs].
    destruct (truthy token); exact Hs.
Qed.

(* ===================================================================== *)
(** * Further properties of the resource methods *)
(* ===================================================================== *)


(** [create] forwards a resolution date that is not a [Date] object as it
    is: given the four required fields, with anything but a [Date] under
    [resolutionDateTime] (a string, but also a number), the body posted to
    [/v0/create] is [marketData] itself. *)
Theorem create_forwards_other_dates
    (E : Engine) (N : Axios.Network)
    (o : gmap string JSValue) (v : JSValue) (w : World) :
  present o "questionTitle" ->
  present o "description" ->
  present o "outcomeType" ->
  o !! "resolutionDateTime" = Some v ->
  nullish v = false ->
  instanceof_Date v = false ->
  MarketsResource.create (VObj o) w = perform (POST "/v0/create" (VObj o)) w.
Proof.
  intros Hq Hd Ho Hv Hn Hdate.
  rewrite (create_object o w v).
  - by rewrite insert_id.
  - repeat constructor; auto. exists v. split; [exact Hv|].
    split; intros ->; discriminate.
  - rewrite Hv. simpl. unfold BaseResource.formatDate. by rewrite Hdate.
Qed.

Lemma create_forwards_other_dates_witness :
  let marketData : gmap string JSValue :=
    <[ "questionTitle" := VStr "Will it snow next week?" ]>
    (<[ "description" := VStr "Weather prediction" ]>
    (<[ "outcomeType" := VStr "binary" ]>
    (<[ "resolutionDateTime" := VStr "2025-10-15T12:00:00Z" ]> ∅))) in
  exists config,
    sent (snd (@MarketsResource.create sampleEngine offline (VObj marketData) fresh))
    = [config]
    /\ Axios.body config = VObj marketData.
Proof.
  intros marketData.
  assert (forall k v, marketData !! k = Some (VStr v) -> present marketData k)
    as Hpresent.
  { intros k v Hk. exists (VStr v). split; [exact Hk|]. split; discriminate. }
  rewrite (create_forwards_other_dates sampleEngine offline marketData
             (VStr "2025-10-15T12:00:00Z") fresh
             (Hpresent "questionTitle" "Will it snow next week?" eq_refl)
             (Hpresent "description" "Weather prediction" eq_refl)
             (Hpresent "outcomeType" "binary" eq_refl)
             eq_refl eq_refl eq_refl).
  eexists. split; reflexivity.
Defined.

(** [create] with an Invalid Date under [resolutionDateTime] fails with
    the [RangeError] of [toISOString], before anything is sent. *)
Theorem create_invalid_date
    (E : Engine) (N : Axios.Network) (o : gmap string JSValue) (w : World) :
  present o "questionTitle" ->
  present o "description" ->
  present o "outcomeType" ->
  o !! "resolutionDateTime" = Some (VDate None) ->
  MarketsResource.create (VObj o) w
  = (Throw (RangeError "Invalid time value"), w).
Proof.
  intros Hq Hd Ho Hv.
  assert (BaseResource.validateRequired (VObj o)
            ["questionTitle"; "description"; "outcomeType"; "resolutionDateTime"]
          = Ok tt) as Hreq.
  { apply validateRequired_passes. repeat constructor; auto.
    eexists. split; [exact Hv|]. split; discriminate. }
  unfold MarketsResource.create, bind, lift. rewrite Hreq. simpl.
  rewrite Hv. reflexivity.
Qed.

Lemma create_invalid_date_witness :
  let marketData : gmap string JSValue :=
    <[ "questionTitle" := VStr "Q" ]>
    (<[ "description" := VStr "D" ]>
    (<[ "outcomeType" := VStr "binary" ]>
    (<[ "resolutionDateTime" := VDate None ]> ∅))) in
  @MarketsResource.create sampleEngine offline (VObj marketData) fresh
  = (Throw (RangeError "Invalid time value"), fresh).
Proof.
  intros marketData.
  assert (forall k v, marketData !! k = Some (VStr v) -> present marketData k)
    as Hpresent.
  { intros k v Hk. exists (VStr v). split; [exact Hk|]. split; discriminate. }
  exact (create_invalid_date sampleEngine offline marketData fresh
           (Hpresent "questionTitle" "Q" eq_refl)
           (Hpresent "description" "D" eq_refl)
           (Hpresent "outcomeType" "binary" eq_refl)
           eq_refl).
Defined.

(** The amount rule of [placeBet] and [sellPosition]: with the three
    required fields present and a number as amount, the data is posted,
    unchanged, exactly when the amount is greater than 0; an amount that
    is [NaN] is not rejected and is posted as well. *)
Theorem amount_rule_numbers
    (E : Engine) (N : Axios.Network) (o : gmap string JSValue) (w : World) :
  present o "marketId" ->
  present o "outcome" ->
  (forall z,
      o !! "amount" = Some (VNum (Num z)) ->
      (0 < z ->
       BettingResource.placeBet (VObj o) w = perform (POST "/v0/bet" (VObj o)) w
       /\ BettingResource.sellPosition (VObj o) w
          = perform (POST "/v0/sell" (VObj o)) w)
      /\ (z <= 0 ->
          BettingResource.placeBet (VObj o) w
          = (Throw (PlainError "Bet amount must be greater than 0"), w)
          /\ BettingResource.sellPosition (VObj o) w
             = (Throw (PlainError "Sell amount must be greater than 0"), w)))
  /\ (o !! "amount" = Some (VNum NaN) ->
      BettingResource.placeBet (VObj o) w = perform (POST "/v0/bet" (VObj o)) w
      /\ BettingResource.sellPosition (VObj o) w
         = perform (POST "/v0/sell" (VObj o)) w).
Proof.
  intros Hm Ho.
  assert (forall a, o !! "amount" = Some (VNum a) ->
            BaseResource.validateRequired (VObj o) ["marketId"; "amount"; "outcome"]
            = Ok tt) as Hreq.
  { intros a Ha. apply validateRequired_passes. repeat constructor; auto.
    eexists. split; [exact Ha|]. split; discriminate. }
  split.
  - intros z Ha. split.
    + intros Hz. unfold BettingResource.placeBet, BettingResource.sellPosition,
        bind, lift. rewrite (Hreq _ Ha). simpl. rewrite Ha. simpl.
      unfold le_num. simpl.
      destruct (Z.leb_spec z 0) as [Hle|_]; [lia|]. split; reflexivity.
    + intros Hz. unfold BettingResource.placeBet, BettingResource.sellPosition,
        bind, lift. rewrite (Hreq _ Ha). simpl. rewrite Ha. simpl.
      unfold le_num. simpl.
      destruct (Z.leb_spec z 0) as [_|Hgt]; [|lia]. split; reflexivity.
  - intros Ha. unfold BettingResource.placeBet, BettingResource.sellPosition,
      bind, lift. rewrite (Hreq _ Ha). simpl. rewrite Ha. split; reflexivity.
Qed.

Lemma amount_rule_numbers_witness :
  let betData : gmap string JSValue :=
    <[ "marketId" := VNum (Num 1) ]>
    (<[ "amount" := VNum NaN ]>
    (<[ "outcome" := VStr "yes" ]> ∅)) in
  exists config,
    sent (snd (@BettingResource.placeBet sampleEngine offline (VObj betData) fresh))
    = [config]
    /\ Axios.url config = "/v0/bet"
    /\ Axios.body config = VObj betData.
Proof.
  intros betData.
  assert (present betData "marketId") as Hm
    by (eexists; split; [reflexivity|]; split; discriminate).
  assert (present betData "outcome") as Ho
    by (eexists; split; [reflexivity|]; split; discriminate).
  destruct (amount_rule_numbers sampleEngine offline betData fresh Hm Ho)
    as (_ & Hnan).
  destruct (Hnan eq_refl) as [Hbet _].
  rewrite Hbet. eexists. repeat split.
Defined.

(** [changePersonalLinks] accepts exactly the objects: a plain object,
    even an empty one, or a [Date], is posted as it is to
    [/v0/profilechange/links]; [undefined], [null], a boolean, a number
    and a string fail with "Links object is required" and nothing is
    sent. *)
Theorem changePersonalLinks_requires_object
    (E : Engine) (N : Axios.Network) (links : JSValue) (w : World) :
  ((exists o, links = VObj o) \/ (exists t, links = VDate t) ->
   UsersResource.changePersonalLinks links w
   = perform (POST "/v0/profilechange/links" links) w)
  /\ (~ ((exists o, links = VObj o) \/ (exists t, links = VDate t)) ->
      UsersResource.changePersonalLinks links w
      = (Throw (PlainError "Links object is required"), w))
  /\ exists config,
       sent (snd (UsersResource.changePersonalLinks (VObj ∅) w))
       = (sent w ++ [config])%list
       /\ Axios.body config = VObj ∅.
Proof.
  split; [|split].
  - intros [[o ->]|[t ->]]; reflexivity.
  - intros Hno. unfold UsersResource.changePersonalLinks.
    destruct links as [| |b|n|s|t|o|f];
      try (exfalso; apply Hno; eauto; fail); try reflexivity.
    + by destruct b.
    + simpl typeof. simpl String.eqb. by rewrite orb_true_r.
    + simpl typeof. simpl String.eqb. by rewrite orb_true_r.
  - eexists. split; [apply (perform_sent (POST "/v0/profilechange/links" (VObj ∅)) w)|].
    unfold HttpClient.onRequest. by destruct (truthy _ && _).
Qed.


(* ===================================================================== *)
(** * [admin.createUser]: the addresses accepted *)
(* ===================================================================== *)

Lemma count_char_append c (a b : string) :
  count_char c (a +:+ b) = (count_char c a + count_char c b)%nat.
Proof.
  induction a as [|c' a IH]; [reflexivity|].
  rewrite append_String. simpl. rewrite IH. lia.
Qed.

Lemma email_part_clean (s : string) :
  all_chars AdminResource.not_space_or_at s = true ->
  count_char "@" s = 0%nat
  /\ all_chars (fun c => negb (is_space c)) s = true.
Proof.
  induction s as [|c s IH]; [done|]. simpl. intros Hs.
  apply andb_true_iff in Hs as [Hc Hs]. destruct (IH Hs) as [-> ->].
  unfold AdminResource.not_space_or_at, is_char in Hc.
  apply negb_true_iff, orb_false_iff in Hc as [-> ->]. done.
Qed.

Lemma WellFormedEmail_shape (s : string) :
  WellFormedEmail s ->
  count_char "@" s = 1%nat
  /\ all_chars (fun c => negb (is_space c)) s = true.
Proof.
  intros (a & b & c & -> & [_ Ha] & [_ Hb] & [_ Hc]).
  destruct (email_part_clean a Ha) as [Ha1 Ha2].
  destruct (email_part_clean b Hb) as [Hb1 Hb2].
  destruct (email_part_clean c Hc) as [Hc1 Hc2].
  rewrite !count_char_append, !all_chars_append.
  rewrite Ha1, Hb1, Hc1, Ha2, Hb2, Hc2. done.
Qed.

(** [createUser], given its five required fields and a string as email,
    posts the data, unchanged, exactly when the address has the form
    [local@domain.tld], and fails with "Invalid email format", sending
    nothing, otherwise; an accepted address holds exactly one [@] and no
    white space. *)
Theorem createUser_email_checked
    (E : Engine) (N : Axios.Network)
    (o : gmap string JSValue) (s : string) (w : World) :
  Forall (present o) ["username"; "displayName"; "email"; "password"; "userType"] ->
  o !! "email" = Some (VStr s) ->
  (WellFormedEmail s ->
   AdminResource.createUser (VObj o) w
   = perform (POST "/v0/admin/createuser" (VObj o)) w
   /\ count_char "@" s = 1%nat
   /\ all_chars (fun c => negb (is_space c)) s = true)
  /\ (~ WellFormedEmail s ->
      AdminResource.createUser (VObj o) w
      = (Throw (PlainError "Invalid email format"), w))
  /\ (sent (snd (AdminResource.createUser (VObj o) w)) <> sent w
      <-> WellFormedEmail s).
Proof.
  intros Hreq He.
  assert (WellFormedEmail s ->
          AdminResource.createUser (VObj o) w
          = perform (POST "/v0/admin/createuser" (VObj o)) w) as Hgood.
  { intros Hwf. apply validateRequired_passes in Hreq.
    unfold AdminResource.createUser, bind, lift. rewrite Hreq. simpl.
    rewrite He. simpl. apply emailRegex_spec in Hwf. by rewrite Hwf. }
  assert (~ WellFormedEmail s ->
          AdminResource.createUser (VObj o) w
          = (Throw (PlainError "Invalid email format"), w)) as Hbad
    by (by apply email_rule).
  split; [|split; [exact Hbad|]].
  - intros Hwf. split; [by apply Hgood | by apply WellFormedEmail_shape].
  - split.
    + intros Hsent. destruct (matches AdminResource.emailRegex s) eqn:Hm.
      * by apply emailRegex_spec.
      * exfalso. apply Hsent. rewrite Hbad; [reflexivity|].
        intros Hwf. apply emailRegex_spec in Hwf. congruence.
    + intros Hwf. rewrite (Hgood Hwf), (proj1 (perform_sent _ w)).
      intros Heq. apply (f_equal length) in Heq.
      rewrite length_app in Heq. simpl in Heq. lia.
Qed.

Lemma createUser_email_checked_witness :
  let userData : gmap string JSValue :=
    <[ "username" := VStr "newuser" ]>
    (<[ "displayName" := VStr "New User" ]>
    (<[ "email" := VStr "newuser@example.com" ]>
    (<[ "password" := VStr "securepassword" ]>
    (<[ "userType" := VStr "standard" ]> ∅)))) in
  exists config,
    sent (snd (@AdminResource.createUser sampleEngine offline (VObj userData) fresh))
    = [config]
    /\ Axios.body config = VObj userData.
Proof.
  intros userData.
  assert (forall k v, userData !! k = Some (VStr v) -> present userData k)
    as Hpresent.
  { intros k v Hk. exists (VStr v). split; [exact Hk|]. split; discriminate. }
  destruct (createUser_email_checked sampleEngine offline userData
              "newuser@example.com" fresh) as (Hgood & _).
  - repeat constructor.
    + exact (Hpresent "username" "newuser" eq_refl).
    + exact (Hpresent "displayName" "New User" eq_refl).
    + exact (Hpresent "email" "newuser@example.com" eq_refl).
    + exact (Hpresent "password" "securepassword" eq_refl).
    + exact (Hpresent "userType" "standard" eq_refl).
  - reflexivity.
  - destruct Hgood as [Hsend _].
    + apply emailRegex_spec. vm_compute. reflexivity.
    + rewrite Hsend. eexists. split; reflexivity.
Defined.

(* ===================================================================== *)
(** * [validateRequired] on values that are not objects *)
(* ===================================================================== *)

(** With no name required [validateRequired] passes on any value; on
    [undefined] and [null] it does not report missing names but raises the
    [TypeError] of reading the first required name, so a resource method
    called without its argument object fails with that error, sending
    nothing; on a boolean, a number or a [Date], which have no property of
    their own, it reports exactly the required names that their prototype
    chain lacks, in the order required: [validateRequired(5, ['toString',
    'x'])] reports [x] only, and [validateRequired(true, ['valueOf'])]
    passes. *)
Theorem validateRequired_non_objects (E : Engine) :
  (forall params, BaseResource.validateRequired params [] = Ok tt)
  /\ (forall n required,
        BaseResource.validateRequired VUndefined (n :: required)
        = Throw (TypeError ("Cannot read properties of undefined (reading '"
                              +:+ n +:+ "')"))
        /\ BaseResource.validateRequired VNull (n :: required)
           = Throw (TypeError ("Cannot read properties of null (reading '"
                                 +:+ n +:+ "')")))
  /\ (forall v required,
        (exists b, v = VBool b) \/ (exists x, v = VNum x) \/ (exists t, v = VDate t) ->
        BaseResource.validateRequired v required
        = match filter (fun n => inherited v n = None) required with
          | [] => Ok tt
          | missing =>
              Throw (PlainError ("Missing required parameters: "
                                   +:+ comma_separated missing))
          end)
  /\ BaseResource.validateRequired (VNum (Num 5)) ["toString"; "x"]
     = Throw (PlainError "Missing required parameters: x")
  /\ BaseResource.validateRequired (VBool true) ["valueOf"] = Ok tt
  /\ (forall (N : Axios.Network) (w : World),
        BettingResource.placeBet VUndefined w
        = (Throw (TypeError
                    "Cannot read properties of undefined (reading 'marketId')"), w)
        /\ AuthResource.login VNull w
           = (Throw (TypeError
                       "Cannot read properties of null (reading 'username')"), w)).
Proof.
  split; [reflexivity|]. split; [by split|].
  split; [|split; [vm_compute; reflexivity|split; [vm_compute; reflexivity|by split]]].
  intros v required Hv.
  assert (nullish v = false /\ forall n,
             GetProp v n = Ok (default VUndefined (inherited v n)))
    as [Hnn Hread]
    by (destruct Hv as [[b ->]|[[x ->]|[t ->]]]; split; reflexivity).
  assert (BaseResource.Array_filter (BaseResource.is_missing v) required
          = Ok (filter (fun n => inherited v n = None) required)) as Hfilter.
  { induction required as [|n required IH]; [reflexivity|].
    simpl. unfold BaseResource.is_missing at 1. rewrite Hread, IH. simpl.
    rewrite (nullish_inherited v n Hnn). case_bool_decide as Hi.
    - by rewrite filter_cons_True.
    - by rewrite filter_cons_False. }
  unfold BaseResource.validateRequired. rewrite Hfilter.
  destruct (filter _ required) as [|m ms]; [reflexivity|].
  rewrite <- join_comma_separated. reflexivity.
Qed.

(* ===================================================================== *)
(** * [formatDate] *)
(* ===================================================================== *)

(** [formatDate] never returns a [Date]: formatting its result again
    changes nothing; it returns every value that is not a [Date] as it
    is; and it maps different instants to different strings. *)
Theorem formatDate_idempotent_injective :
  (forall d r,
      BaseResource.formatDate d = Ok r ->
      instanceof_Date r = false /\ BaseResource.formatDate r = Ok r)
  /\ (forall d, instanceof_Date d = false -> BaseResource.formatDate d = Ok d)
  /\ (forall t1 t2,
        ValidTime t1 -> ValidTime t2 ->
        BaseResource.formatDate (VDate (Some t1))
        = BaseResource.formatDate (VDate (Some t2)) ->
        t1 = t2).
Proof.
  split; [|split].
  - intros d r Hr. unfold BaseResource.formatDate in Hr.
    destruct d as [| | | | |[t|]| |]; simpl in Hr; simplify_eq; by split.
  - intros d Hd. unfold BaseResource.formatDate. by rewrite Hd.
  - intros t1 t2 H1 H2 Heq. unfold BaseResource.formatDate in Heq.
    simpl in Heq. simplify_eq.
    apply read_iso_toISOString in H1, H2. congruence.
Qed.


Lemma length_append (a b : string) :
  String.length (a +:+ b) = (String.length a + String.length b)%nat.
Proof.
  induction a as [|c a IH]; [reflexivity|].
  rewrite append_String. simpl. by rewrite IH.
Qed.

Lemma length_pad_onto (w : nat) :
  forall z acc, String.length (pad_onto w z acc) = (w + String.length acc)%nat.
Proof.
  induction w as [|w IH]; intros z acc; [reflexivity|].
  change (pad_onto (S w) z acc) with (pad_onto w (z / 10) (String (digit z) acc)).
  rewrite IH. simpl. lia.
Qed.

(** The string [formatDate] gives for a date has a fixed width: 24
    characters when the year of the instant is within 0 to 9999, and 27,
    for the signed six-digit year, otherwise. *)
Theorem formatDate_width (t : Z) :
  exists s,
    BaseResource.formatDate (VDate (Some t)) = Ok (VStr s)
    /\ String.length s
       = let y := fst (fst (civil_from_days (Day t))) in
         if (0 <=? y) && (y <=? 9999) then 24%nat else 27%nat.
Proof.
  eexists. split; [reflexivity|].
  unfold Date_toISOString.
  destruct (civil_from_days (Day t)) as [[y m] d]. simpl fst.
  rewrite !length_append. unfold YearString.
  destruct ((0 <=? y) && (y <=? 9999)).
  - unfold pad. rewrite !length_pad_onto. reflexivity.
  - rewrite length_append. unfold pad. rewrite !length_pad_onto.
    by destruct (y <? 0).
Qed.

(* ===================================================================== *)
(** * Frames of the resource methods *)
(* ===================================================================== *)

Section Frames.
Context `{Engine} `{Axios.Network}.

Lemma at_most_one_refl w : at_most_one_sent w w.
Proof. by left. Qed.

Lemma kt_throw {A} t : keeps_transport (@throw A t).
Proof. intros w. split; [reflexivity | apply at_most_one_refl]. Qed.

Lemma kt_perform v : keeps_transport (perform v).
Proof.
  intros w. destruct (perform_sent v w) as [Hs Hh].
  split; [exact Hh|]. right. eauto.
Qed.

Lemma kt_bind_lift {A B} (r : Result A) (k : A -> M B) :
  (forall a, keeps_transport (k a)) ->
  keeps_transport (bind (lift r) k).
Proof.
  intros Hk w. unfold bind, lift. destruct r as [a|t]; [apply Hk|].
  split; [reflexivity | apply at_most_one_refl].
Qed.

Lemma kt_if {A} (b : bool) (m1 m2 : M A) :
  keeps_transport m1 -> keeps_transport m2 ->
  keeps_transport (if b then m1 else m2).
Proof. by destruct b. Qed.

Lemma kt_keeps_configuration {A} (m : M A) :
  keeps_transport m -> keeps_configuration m.
Proof.
  intros Hm w. destruct (Hm w) as [Hh Hs]. rewrite Hh. auto.
Qed.

Lemma kc_throw {A} t : keeps_configuration (@throw A t).
Proof. apply kt_keeps_configuration, kt_throw. Qed.

Lemma kc_bind_lift {A B} (r : Result A) (k : A -> M B) :
  (forall a, keeps_configuration (k a)) ->
  keeps_configuration (bind (lift r) k).
Proof.
  intros Hk w. unfold bind, lift. destruct r as [a|t]; [apply Hk|].
  repeat split; auto. apply at_most_one_refl.
Qed.

Lemma kc_if {A} (b : bool) (m1 m2 : M A) :
  keeps_configuration m1 -> keeps_configuration m2 ->
  keeps_configuration (if b then m1 else m2).
Proof. by destruct b. Qed.

(** What follows the checks in [login]: one request, and at most a new
    token. *)
Lemma kc_login_tail path data :
  keeps_configuration
    (let* response := perform (POST path data) in
     let* token := lift (GetProp response "token") in
     (if truthy token then Transport.setToken token else ret tt) ;;
     ret response)%js.
Proof.
  intros w. unfold bind.
  pose proof (perform_sent (POST path data) w) as [Hs Hh].
  destruct (perform (POST path data) w) as [[response|t] w1]; simpl in *.
  - unfold lift. destruct (GetProp response "token") as [token|t]; simpl.
    + destruct (truthy token); simpl; rewrite Hh; repeat split; right; eauto.
    + rewrite Hh. repeat split. right. eauto.
  - rewrite Hh. repeat split. right. eauto.
Qed.

Lemma run_keeps_transport (c : ResourceCall) :
  (forall credentials, c <> Auth_login credentials) ->
  keeps_transport (run c).
Proof.
  intros Hc. destruct c; try (exfalso; by eapply Hc); simpl; run_method;
    repeat first
      [ apply kt_perform
      | apply (kt_perform (GET _ _))
      | apply (kt_perform (POST _ _))
      | apply kt_throw
      | apply kt_if
      | apply kt_bind_lift; intros ? ].
Qed.

Lemma login_keeps_configuration credentials :
  keeps_configuration (AuthResource.login credentials).
Proof.
  unfold AuthResource.login.
  repeat first
    [ apply kc_login_tail
    | apply kc_throw
    | apply kc_if
    | apply kc_bind_lift; intros ? ].
Qed.
End Frames.

(** What no resource method does.  A call of an asynchronous method --
    those of the betting, markets, users, config and admin resources, and
    [login] -- sends at most one request, after those sent before, and
    never changes the base address or the defaults of the transport; of
    these only [login] can change the token; and such a call that returns
    a value has sent exactly one request.  The four synchronous methods
    of the auth resource send nothing: [isAuthenticated] and [getToken]
    change nothing at all, [logout] and [setToken] nothing but the
    token. *)
Theorem resource_methods_frame
    (E : Engine) (N : Axios.Network) (c : ResourceCall) (w : World) :
  at_most_one_sent w (snd (run c w))
  /\ HttpClient.baseURL (http (snd (run c w))) = HttpClient.baseURL (http w)
  /\ HttpClient.client (http (snd (run c w))) = HttpClient.client (http w)
  /\ ((forall credentials, c <> Auth_login credentials) ->
      http (snd (run c w)) = http w)
  /\ (forall a, fst (run c w) = Ok a ->
        exists config, sent (snd (run c w)) = (sent w ++ [config])%list)
  /\ snd (AuthResource.isAuthenticated w) = w
  /\ snd (AuthResource.getToken w) = w
  /\ (forall w',
        w' = snd (AuthResource.logout w)
        \/ (exists token, w' = snd (AuthResource.setToken token w)) ->
        sent w' = sent w
        /\ HttpClient.baseURL (http w') = HttpClient.baseURL (http w)
        /\ HttpClient.client (http w') = HttpClient.client (http w)).
Proof.
  assert (keeps_configuration (run c)) as Hkc.
  { destruct c; try (apply kt_keeps_configuration, run_keeps_transport;
                     intros ?; discriminate).
    apply login_keeps_configuration. }
  destruct (Hkc w) as (Hb & Hcl & Hs).
  split; [exact Hs|]. split; [exact Hb|]. split; [exact Hcl|].
  split; [|split; [|split; [reflexivity|split; [reflexivity|]]]].
  - intros Hc. by apply run_keeps_transport.
  - intros a Ha. destruct Hs as [Hs|Hs]; [|exact Hs]. exfalso.
    destruct (run_local_or_sends c w) as [(t & Hrun & _)|Hlen].
    + rewrite Hrun in Ha. discriminate.
    + rewrite Hs in Hlen. lia.
  - intros w' [->|[token ->]]; repeat split.
Qed.

(* ===================================================================== *)
(** * The client *)
(* ===================================================================== *)

